(** * The order-execution core of the trading bot

    A shallow embedding of [execution.py] (class [OrderExecutor]),
    of [TradingBot.run_once] and [TradingBot.run_loop] in [main.py], and of
    [DataHandler.retry_on_network_error] in [data_handler.py].

    Python floats are IEEE 754 binary64 with round-to-nearest-even: they are
    modelled by Rocq's primitive floats, which are the same numbers with the
    same rounding.  Python exceptions are modelled by a [result] type, the
    mutable attribute [self.current_position] by explicit state passing, and
    every call that leaves the process (exchange, notifier, logger at the
    decision points, [time.sleep]) by an entry in an ordered event trace. *)

From Stdlib Require Import ZArith List String Bool Lia.
From Stdlib Require Import Floats.
From Stdlib Require Import DecimalString.
Import ListNotations.

Open Scope string_scope.
Open Scope list_scope.

(** ** Python values and exceptions *)

(** The [Exception] subclasses the modelled code can meet.  In ccxt
    [RequestTimeout] derives from [NetworkError], and [InsufficientFunds]
    and [AuthenticationError] derive from [ExchangeError].
    [KeyboardInterrupt] is not an [Exception]; it only matters to
    [run_loop] and is modelled there. *)
Inductive exn : Type :=
| NetworkError
| RequestTimeout
| ExchangeNotAvailable
| ExchangeError
| InsufficientFunds
| InvalidOrder
| AuthenticationError
| TypeError
| ZeroDivisionError
| NameError
| KeyError
| OtherException.

(** [isinstance(e, (ccxt.NetworkError, ccxt.RequestTimeout))]. *)
Definition is_network_error (e : exn) : bool :=
  match e with
  | NetworkError | RequestTimeout | ExchangeNotAvailable => true
  | _ => false
  end.

(** [isinstance(e, ccxt.InsufficientFunds)]. *)
Definition is_insufficient_funds (e : exn) : bool :=
  match e with
  | InsufficientFunds => true
  | _ => false
  end.

(** The outcome of evaluating a Python expression or call. *)
Inductive result (A : Type) : Type :=
| Ok (a : A)
| Raise (e : exn).
Arguments Ok {A} a.
Arguments Raise {A} e.

(** A Python number or [None]; every number the code handles is a price,
    a balance or a quantity, read as a float. *)
Definition pynum : Type := option float.

(** Truthiness of a float: [0.0] and [-0.0] are falsy, [nan] is truthy. *)
Definition float_truthy (x : float) : bool := negb (PrimFloat.eqb x 0%float).

(** Truthiness of [required_amount], a float or [None]. *)
Definition pynum_truthy (x : pynum) : bool :=
  match x with
  | None => false
  | Some v => float_truthy v
  end.

(** [a - b]: [TypeError] when an operand is [None]. *)
Definition py_sub (a b : pynum) : result float :=
  match a, b with
  | Some x, Some y => Ok (x - y)%float
  | _, _ => Raise TypeError
  end.

(** [a * b]: [TypeError] when an operand is [None]. *)
Definition py_mul (a b : pynum) : result float :=
  match a, b with
  | Some x, Some y => Ok (x * y)%float
  | _, _ => Raise TypeError
  end.

(** [a / b]: [TypeError] when an operand is [None], [ZeroDivisionError] when
    the divisor compares equal to zero. *)
Definition py_div (a b : pynum) : result float :=
  match a, b with
  | Some x, Some y =>
      if PrimFloat.eqb y 0%float then Raise ZeroDivisionError else Ok (x / y)%float
  | _, _ => Raise TypeError
  end.

(** [a >= b] and [a > b] on a float-or-[None] left operand. *)
Definition py_ge (a : pynum) (b : float) : result bool :=
  match a with
  | Some x => Ok (PrimFloat.leb b x)
  | None => Raise TypeError
  end.

Definition py_gt (a : pynum) (b : float) : result bool :=
  match a with
  | Some x => Ok (PrimFloat.ltb b x)
  | None => Raise TypeError
  end.

(** [f"{x:.2f}"] raises [TypeError] on [None]; the text itself is not
    modelled, only whether formatting succeeds. *)
Definition py_format_2f (a : pynum) : result unit :=
  match a with
  | Some _ => Ok tt
  | None => Raise TypeError
  end.

(** [str(int(t))] for the integer part [t] of [time.time()]. *)
Definition str_int (t : Z) : string := NilZero.string_of_int (Z.to_int t).

(** [num / den] rounded to the nearest integer, ties to even, for
    [num >= 0] and [den > 0]. *)
Definition round_half_even (num den : Z) : Z :=
  let q := (num / den)%Z in
  let r := (num mod den)%Z in
  match (2 * r ?= den)%Z with
  | Lt => q
  | Gt => (q + 1)%Z
  | Eq => if Z.even q then q else (q + 1)%Z
  end.

(** [n] in two decimal digits, for [0 <= n < 100]. *)
Definition two_digits (n : Z) : string :=
  if (n <? 10)%Z then String.append "0" (str_int n) else str_int n.

(** [f"{x:+.2f}"]: the sign, then the exact binary value rounded to two
    decimals, ties to even, as Python's float formatting does. *)
Definition format_signed_2f (x : float) : string :=
  let sign (s : bool) := if s then "-" else "+" in
  match Prim2SF x with
  | S754_nan => "+nan"
  | S754_infinity s => String.append (sign s) "inf"
  | S754_zero s => String.append (sign s) "0.00"
  | S754_finite s m e =>
      let cents :=
        match e with
        | Zneg k => round_half_even (Zpos m * 100) (Z.pow 2 (Zpos k))
        | _ => (Zpos m * Z.pow 2 e * 100)%Z
        end in
      String.append (sign s)
        (String.append (str_int (cents / 100))
           (String.append "." (two_digits (cents mod 100))))
  end.

(** ** Orders, signals and the configuration *)

(** A ccxt order structure, or the dictionary the dry-run branches build.
    The keys the code reads are [id], [price] and [amount]; ccxt leaves
    [price] or [amount] as [None] when the venue does not report them.
    Such a dictionary is never empty, so it is truthy. *)
Record order : Type := {
  order_id : string;
  order_symbol : string;
  order_type : string;
  order_side : string;
  order_price : pynum;
  order_amount : pynum;
  order_cost : pynum
}.

Inductive signal : Type := BUY | SELL | WAIT.

(** The settings of [config.py] the core reads. *)
Record config : Type := {
  SYMBOL : string;
  POSITION_SIZE_USDT : float;
  DRY_RUN : bool;
  LOOP_INTERVAL : Z
}.

(** [config.py] as shipped, with [DRY_RUN] switched off for live trading. *)
Definition live_config : config :=
  {| SYMBOL := "BTC/USDT"; POSITION_SIZE_USDT := 20%float;
     DRY_RUN := false; LOOP_INTERVAL := 60 |}.

(** ** The observable trace *)

(** The logger lines at decision points, with the data they print.  The
    banner and step lines of [run_once] and [run_loop], which are written
    on every path alike, are left out. *)
Inductive log_line : Type :=
| LogBalance                      (* check_balance: free balance *)
| LogBalanceEnough                (* check_balance: enough *)
| LogBalanceShort                 (* check_balance: not enough *)
| LogBalanceError                 (* check_balance: cannot check *)
| LogDryRun                       (* place_market_*: dry run banner *)
| LogFiring                       (* place_market_*: about to submit *)
| LogBought (id : string)         (* place_market_buy: bought *)
| LogSold (id : string) (profit_pct : float) (* place_market_sell: sold *)
| LogInsufficientFunds            (* place_market_buy: ccxt.InsufficientFunds *)
| LogOrderError                   (* place_market_*: cannot submit *)
| LogNoPositionToSell             (* place_market_sell / run_once *)
| LogFetchFailed                  (* run_once: no candles *)
| LogAlreadyPositioned            (* run_once: position open, no rebuy *)
| LogSkipBuy                      (* run_once: balance short, skip buy *)
| LogBuyDone | LogBuyFailed       (* run_once: after place_market_buy *)
| LogSellDone | LogSellFailed     (* run_once: after place_market_sell *)
| LogWaiting                      (* run_once: WAIT *)
| LogRunError                     (* run_once: exception caught *)
| LogCycleFailed (retry_count : nat) (* run_loop: failed cycle *)
| LogTooManyFailures              (* run_loop: stop *)
| LogInterrupted                  (* run_loop: Ctrl+C *)
| LogUnexpected                   (* run_loop: except Exception *)
| LogRetryExceeded                (* run_loop: except branch, stop *)
| LogNetworkRetry (attempt : nat) (* retry_on_network_error: retry *)
| LogNetworkGiveUp                (* retry_on_network_error: give up *)
| LogStopped.                     (* run_loop: after the loop *)

(** The text [notify_error] is called with, by call site. *)
Inductive error_note : Type :=
| NoteInsufficientFunds
| NoteBuyError
| NoteSellError
| NoteMainLoop
| NoteBotStopped
| NoteCritical.

(** ccxt's optional [params] argument of an order call: exchange-specific
    fields such as [clientOrderId]. *)
Definition params : Type := list (string * string).

(** What leaves the process, in order.  [FetchOrder] is ccxt's status query
    for a submitted order; it is part of the exchange interface, and no
    modelled function calls it. *)
Inductive event : Type :=
| FetchOHLCV
| FetchBalance
| FetchTicker (symbol : string)
| CreateMarketBuyOrder (symbol : string) (amount : float) (extra : params)
| CreateMarketSellOrder (symbol : string) (amount : pynum) (extra : params)
| FetchOrder (id : string)
| NotifyBuyOrder (symbol : string) (price amount_usdt : float) (dry_run : bool)
| NotifySellOrder (symbol : string) (price cost profit_pct : float) (dry_run : bool)
| NotifyError (note : error_note)
| Log (line : log_line)
| Sleep (seconds : Z).

(** An order submission: a call that asks the exchange to trade. *)
Definition is_submission (ev : event) : bool :=
  match ev with
  | CreateMarketBuyOrder _ _ _ | CreateMarketSellOrder _ _ _ => true
  | _ => false
  end.

Definition is_buy_submission (ev : event) : bool :=
  match ev with
  | CreateMarketBuyOrder _ _ _ => true
  | _ => false
  end.

Definition is_status_query (ev : event) : bool :=
  match ev with
  | FetchOrder _ => true
  | _ => false
  end.

Definition submissions (tr : list event) : list event := filter is_submission tr.

(** [params.get('clientOrderId')]. *)
Fixpoint lookup (key : string) (extra : params) : option string :=
  match extra with
  | [] => None
  | (k, v) :: rest => if String.eqb k key then Some v else lookup key rest
  end.

(** The client order id (the idempotency key) a submission carries: ccxt
    takes it in [params]. *)
Definition client_order_id (ev : event) : option string :=
  match ev with
  | CreateMarketBuyOrder _ _ extra => lookup "clientOrderId" extra
  | CreateMarketSellOrder _ _ extra => lookup "clientOrderId" extra
  | _ => None
  end.

(** ** The executor's state and the world's answers *)

(** [OrderExecutor]: the only mutable attribute is [current_position]. *)
Record OrderExecutor : Type := {
  current_position : option order
}.

(** [OrderExecutor.__init__]. *)
Definition init : OrderExecutor := {| current_position := None |}.

(** What the collaborators answer during one cycle.  Each exchange method is
    called at most once per cycle, so one answer per method describes the
    cycle.  [fetch_balance_free c] is the value of
    [exchange.fetch_balance()[c]['free']] (or the exception raised on the
    way), [fetch_ticker_last s] the value of
    [exchange.fetch_ticker(s)['last']], [fetch_ohlcv_ok] whether
    [DataHandler.fetch_ohlcv] returned a frame rather than [None], and
    [run_strategy] the signal of [TradingStrategy.run_strategy].
    The order calls are made as [create_market_buy_order(symbol, amount)]
    and [create_market_sell_order(symbol, amount)], with [params] left at
    its default, the empty dictionary.  [clock] is [int(time.time())]. *)
Record world : Type := {
  fetch_ohlcv_ok : bool;
  run_strategy : result signal;
  fetch_balance_free : string -> result pynum;
  fetch_ticker_last : string -> result pynum;
  create_market_buy_order : string -> float -> result order;
  create_market_sell_order : string -> pynum -> result order;
  clock : Z
}.

(** How [execution.py] was loaded.  Its [import time] stands under
    [if __name__ == "__main__":], so the global [time] is bound only when
    the file runs as a script; [main.py] imports it, and there the name is
    unbound. *)
Inductive load_mode : Type := AsScript | Imported.

(** ** A monad for state, trace and exceptions *)

Definition M (A : Type) : Type :=
  OrderExecutor -> result A * OrderExecutor * list event.

Definition ret {A} (a : A) : M A := fun st => (Ok a, st, []).

Definition raise {A} (e : exn) : M A := fun st => (Raise e, st, []).

Definition bind {A B} (m : M A) (k : A -> M B) : M B :=
  fun st =>
    match m st with
    | (Ok a, st1, tr1) =>
        let '(r, st2, tr2) := k a st1 in (r, st2, tr1 ++ tr2)
    | (Raise e, st1, tr1) => (Raise e, st1, tr1)
    end.

(** [try: m  except Exception as e: h e]. *)
Definition try_except {A} (m : M A) (h : exn -> M A) : M A :=
  fun st =>
    match m st with
    | (Ok a, st1, tr1) => (Ok a, st1, tr1)
    | (Raise e, st1, tr1) =>
        let '(r, st2, tr2) := h e st1 in (r, st2, tr1 ++ tr2)
    end.

Definition emit (ev : event) : M unit := fun st => (Ok tt, st, [ev]).

Definition lift {A} (r : result A) : M A := fun st => (r, st, []).

Definition get_position : M (option order) :=
  fun st => (Ok (current_position st), st, []).

Definition set_position (p : option order) : M unit :=
  fun _ => (Ok tt, {| current_position := p |}, []).

Declare Scope monad_scope.
Delimit Scope monad_scope with monad.
Notation "x <- m ;; k" := (bind m (fun x => k))
  (at level 61, m at next level, right associativity) : monad_scope.
Notation "m ;;; k" := (bind m (fun _ => k))
  (at level 61, right associativity) : monad_scope.
Open Scope monad_scope.

(** The projections of a run. *)
Definition outcome {A} (r : result A * OrderExecutor * list event) : result A :=
  fst (fst r).
Definition state_after {A} (r : result A * OrderExecutor * list event) : OrderExecutor :=
  snd (fst r).
Definition trace {A} (r : result A * OrderExecutor * list event) : list event :=
  snd r.

(** An exchange call: the request is recorded, then the answer is taken. *)
Definition call {A} (ev : event) (answer : result A) : M A :=
  emit ev;;; lift answer.

(** ** utils.py: the notification templates

    Each template formats its message before anything is sent, so a price
    that is [None] raises [TypeError] in the f-string and nothing leaves
    the process. *)
Module Utils.

Definition notify_buy_order (symbol : string) (price : pynum)
    (amount : float) (dry_run : bool) : M unit :=
  match price with
  | Some p => emit (NotifyBuyOrder symbol p amount dry_run)
  | None => raise TypeError
  end.

Definition notify_sell_order (symbol : string) (price : pynum)
    (amount profit_pct : float) (dry_run : bool) : M unit :=
  match price with
  | Some p => emit (NotifySellOrder symbol p amount profit_pct dry_run)
  | None => raise TypeError
  end.

Definition notify_error (note : error_note) : M unit :=
  emit (NotifyError note).

End Utils.

(** ** execution.py: class OrderExecutor *)
Module Execution.

(** The value of [time.time()] truncated by [int], or the [NameError] of
    the unbound global. *)
Definition time_time (mode : load_mode) (w : world) : result Z :=
  match mode with
  | AsScript => Ok (clock w)
  | Imported => Raise NameError
  end.

(** [((current_price - buy_price) / buy_price) * 100], as written in both
    branches of [place_market_sell]. *)
Definition profit_pct (current_price buy_price : pynum) : result float :=
  match py_sub current_price buy_price with
  | Raise e => Raise e
  | Ok d =>
      match py_div (Some d) buy_price with
      | Raise e => Raise e
      | Ok q => py_mul (Some q) (Some 100%float)
      end
  end.

Section Executor.

Variable cfg : config.
Variable mode : load_mode.
Variable w : world.

(** [check_balance(currency, required_amount)]. *)
Definition check_balance (currency : string) (required_amount : pynum) : M bool :=
  try_except
    (free_balance <- call FetchBalance (fetch_balance_free w currency);;
     lift (py_format_2f free_balance);;;
     emit (Log LogBalance);;;
     match required_amount with
     | Some required =>
         if float_truthy required then
           enough <- lift (py_ge free_balance required);;
           if enough
           then emit (Log LogBalanceEnough);;; ret true
           else emit (Log LogBalanceShort);;; ret false
         else
           lift (py_gt free_balance 0%float)
     | None => lift (py_gt free_balance 0%float)
     end)
    (fun _ => emit (Log LogBalanceError);;; ret false).

(** [has_open_position(symbol)]: the argument is ignored. *)
Definition has_open_position : M bool :=
  pos <- get_position;;
  ret (match pos with Some _ => true | None => false end).

(** [place_market_buy(symbol, amount_usdt)]. *)
Definition place_market_buy (symbol : string) (amount_usdt : float)
  : M (option order) :=
  if DRY_RUN cfg then
    emit (Log LogDryRun);;;
    price <- call (FetchTicker symbol) (fetch_ticker_last w symbol);;
    t <- lift (time_time mode w);;
    amount <- lift (py_div (Some amount_usdt) price);;
    let fake_order :=
      {| order_id := String.append "DRY_RUN_" (str_int t);
         order_symbol := symbol;
         order_type := "market";
         order_side := "buy";
         order_price := price;
         order_amount := Some amount;
         order_cost := Some amount_usdt |} in
    set_position (Some fake_order);;;
    Utils.notify_buy_order symbol price amount_usdt true;;;
    ret (Some fake_order)
  else
    try_except
      (current_price <- call (FetchTicker symbol) (fetch_ticker_last w symbol);;
       amount <- lift (py_div (Some amount_usdt) current_price);;
       emit (Log LogFiring);;;
       order <- call (CreateMarketBuyOrder symbol amount [])
                     (create_market_buy_order w symbol amount);;
       emit (Log (LogBought (order_id order)));;;
       set_position (Some order);;;
       Utils.notify_buy_order symbol current_price amount_usdt false;;;
       ret (Some order))
      (fun e =>
         if is_insufficient_funds e then
           emit (Log LogInsufficientFunds);;;
           Utils.notify_error NoteInsufficientFunds;;;
           ret None
         else
           emit (Log LogOrderError);;;
           Utils.notify_error NoteBuyError;;;
           ret None).

(** [place_market_sell(symbol, amount)]; [amount] is [None] when the caller
    leaves it out. *)
Definition place_market_sell (symbol : string) (amount : pynum)
  : M (option order) :=
  pos <- get_position;;
  match pos with
  | None => emit (Log LogNoPositionToSell);;; ret None
  | Some position =>
      let amount :=
        match amount with
        | None => order_amount position
        | Some a => Some a
        end in
      if DRY_RUN cfg then
        emit (Log LogDryRun);;;
        current_price <- call (FetchTicker symbol) (fetch_ticker_last w symbol);;
        let buy_price := order_price position in
        pct <- lift (profit_pct current_price buy_price);;
        t <- lift (time_time mode w);;
        cost <- lift (py_mul amount current_price);;
        let fake_order :=
          {| order_id := String.append "DRY_RUN_SELL_" (str_int t);
             order_symbol := symbol;
             order_type := "market";
             order_side := "sell";
             order_price := current_price;
             order_amount := amount;
             order_cost := Some cost |} in
        Utils.notify_sell_order symbol current_price cost pct true;;;
        set_position None;;;
        ret (Some fake_order)
      else
        try_except
          (emit (Log LogFiring);;;
           order <- call (CreateMarketSellOrder symbol amount [])
                         (create_market_sell_order w symbol amount);;
           let current_price := order_price order in
           let buy_price := order_price position in
           pct <- lift (profit_pct current_price buy_price);;
           emit (Log (LogSold (order_id order) pct));;;
           cost <- lift (py_mul amount current_price);;
           Utils.notify_sell_order symbol current_price cost pct false;;;
           set_position None;;;
           ret (Some order))
          (fun _ =>
             emit (Log LogOrderError);;;
             Utils.notify_error NoteSellError;;;
             ret None)
  end.

End Executor.

End Execution.

(** ** data_handler.py: retry_on_network_error

    [func] is a Python callable: it is run against a world of type [W]
    that it may change (a script of answers, a log of requests).  The
    wrapper returns the callable's value, or [None]; exceptions that are
    not network errors go through to the caller. *)
Module DataHandler.

Section Retry.

Context {W A : Type}.
Variable func : W -> result A * W.
Variable max_retries : nat.
Variable delay : Z.

(** The [for attempt in range(max_retries)] loop from [attempt] on, with
    [todo] iterations left. *)
Fixpoint retry_from (attempt todo : nat) (s : W)
  : result (option A) * W * list event :=
  match todo with
  | O => (Ok None, s, [])
  | S todo' =>
      match func s with
      | (Ok v, s') => (Ok (Some v), s', [])
      | (Raise e, s') =>
          if is_network_error e then
            if (attempt <? max_retries - 1)%nat then
              let '(r, s'', tr) := retry_from (S attempt) todo' s' in
              (r, s'', Log (LogNetworkRetry (attempt + 1)) :: Sleep delay :: tr)
            else (Ok None, s', [Log LogNetworkGiveUp])
          else (Raise e, s', [])
      end
  end.

Definition retry_on_network_error (s : W) : result (option A) * W * list event :=
  retry_from 0 max_retries s.

End Retry.

End DataHandler.

(** ** main.py: class TradingBot *)
Module Main.

(** [main.py] reaches the executor through [from execution import
    OrderExecutor]. *)
Definition executor_mode : load_mode := Imported.

Section Bot.

Variable cfg : config.

(** [run_once()]: one cycle. *)
Definition run_once (w : world) : M bool :=
  try_except
    (emit FetchOHLCV;;;
     if negb (fetch_ohlcv_ok w) then
       emit (Log LogFetchFailed);;; ret false
     else
       signal <- lift (run_strategy w);;
       match signal with
       | BUY =>
           positioned <- Execution.has_open_position;;
           if positioned then
             emit (Log LogAlreadyPositioned);;; ret true
           else
             funded <- Execution.check_balance w "USDT" (Some (POSITION_SIZE_USDT cfg));;
             if negb funded then
               emit (Log LogSkipBuy);;; ret true
             else
               order <- Execution.place_market_buy cfg executor_mode w
                          (SYMBOL cfg) (POSITION_SIZE_USDT cfg);;
               match order with
               | Some _ => emit (Log LogBuyDone)
               | None => emit (Log LogBuyFailed)
               end;;;
               ret true
       | SELL =>
           positioned <- Execution.has_open_position;;
           if negb positioned then
             emit (Log LogNoPositionToSell);;; ret true
           else
             order <- Execution.place_market_sell cfg executor_mode w (SYMBOL cfg) None;;
             match order with
             | Some _ => emit (Log LogSellDone)
             | None => emit (Log LogSellFailed)
             end;;;
             ret true
       | WAIT => emit (Log LogWaiting);;; ret true
       end)
    (fun _ =>
       emit (Log LogRunError);;;
       Utils.notify_error NoteMainLoop;;;
       ret false).

(** What the statement [success = self.run_once()] meets in one pass. *)
Inductive cycle_input : Type :=
| Cycle (w : world)        (* [run_once] runs against [w] *)
| Unexpected (e : exn).    (* an [Exception] escapes instead *)

(** One pass of the [while True] body. *)
Inductive iteration : Type :=
| Pass (c : cycle_input)
| KeyboardInterrupt.       (* Ctrl+C during the pass *)

Definition max_retries : nat := 5.

(** How a pass ends: the loop goes round again, or [break]. *)
Inductive control : Type := Continue | Break.

(** One entry per pass that was not interrupted: whether it succeeded
    ([success] was true; an exception counts as a failure) and
    [retry_count] after the pass. *)
Definition history : Type := list (bool * nat).

(** The body of [while True:] with its [except Exception] handler;
    [cycle] is the statement [success = self.run_once()].  The result is
    how the pass ends, [retry_count] after it, and whether it succeeded. *)
Definition loop_body (cycle : M bool) (retry_count : nat)
  : M (control * nat * bool) :=
  try_except
    (success <- cycle;;
     let retry_count' := if success then 0%nat else (retry_count + 1)%nat in
     (if success then ret tt else emit (Log (LogCycleFailed retry_count')));;;
     if (max_retries <=? retry_count')%nat then
       emit (Log LogTooManyFailures);;;
       Utils.notify_error NoteBotStopped;;;
       ret (Break, retry_count', success)
     else
       emit (Sleep (LOOP_INTERVAL cfg));;;
       ret (Continue, retry_count', success))
    (fun _ =>
       emit (Log LogUnexpected);;;
       Utils.notify_error NoteCritical;;;
       let retry_count' := (retry_count + 1)%nat in
       if (retry_count' <? max_retries)%nat then
         emit (Sleep 10);;; ret (Continue, retry_count', false)
       else
         emit (Log LogRetryExceeded);;; ret (Break, retry_count', false)).

(** The cycle of a pass. *)
Definition cycle_of (c : cycle_input) : M bool :=
  match c with
  | Cycle w => run_once w
  | Unexpected e => raise e
  end.

(** The [while True] loop over the passes the world supplies.  The result
    is [Break] when the loop left through a [break], [Continue] when the
    supplied passes ran out with the loop still going; with it come the
    final [retry_count] and the history of the passes. *)
Fixpoint run_loop_from (inputs : list iteration) (retry_count : nat)
  : M (control * nat * history) :=
  match inputs with
  | [] => ret (Continue, retry_count, [])
  | KeyboardInterrupt :: _ =>
      emit (Log LogInterrupted);;;
      ret (Break, retry_count, [])
  | Pass c :: rest =>
      r <- loop_body (cycle_of c) retry_count;;
      let '(ctl, retry_count', success) := r in
      match ctl with
      | Break => ret (Break, retry_count', [(success, retry_count')])
      | Continue =>
          r' <- run_loop_from rest retry_count';;
          let '(ctl', final, h) := r' in
          ret (ctl', final, (success, retry_count') :: h)
      end
  end.

(** [run_loop()]. *)
Definition run_loop (inputs : list iteration) : M (control * nat * history) :=
  r <- run_loop_from inputs 0;;
  match fst (fst r) with
  | Break => emit (Log LogStopped);;; ret r
  | Continue => ret r
  end.

End Bot.

End Main.

(** * The vocabulary of the properties *)

Import Main.

(** The executor's ledger is the one attribute [current_position]: the
    positions it tracks are that order, if any. *)
Definition positions (st : OrderExecutor) : list order :=
  match current_position st with
  | Some p => [p]
  | None => []
  end.

(** The tracked positions for one symbol (status other than NONE). *)
Definition positions_for (symbol : string) (st : OrderExecutor) : list order :=
  filter (fun p => String.eqb (order_symbol p) symbol) (positions st).

(** The executor after the cycles [ws], in order, from [st]. *)
Fixpoint run_cycles (cfg : config) (ws : list world) (st : OrderExecutor)
  : OrderExecutor :=
  match ws with
  | [] => st
  | w :: rest => run_cycles cfg rest (state_after (run_once cfg w st))
  end.

(** Everything the cycles [ws] sent out, in order. *)
Fixpoint trace_cycles (cfg : config) (ws : list world) (st : OrderExecutor)
  : list event :=
  match ws with
  | [] => []
  | w :: rest =>
      trace (run_once cfg w st)
      ++ trace_cycles cfg rest (state_after (run_once cfg w st))
  end.

(** The status of the ledger.  The code keeps no mark for a sell in
    flight: a position is tracked or it is not. *)
Inductive position_status : Type := NONE | OPEN.

Definition status (st : OrderExecutor) : position_status :=
  match current_position st with
  | Some _ => OPEN
  | None => NONE
  end.

(** [transient_failures func n s s']: from [s], [n] calls of [func] in a
    row raise a network error, and leave the world in [s']. *)
Inductive transient_failures {W A : Type} (func : W -> result A * W)
  : nat -> W -> W -> Prop :=
| tf_none (s : W) : transient_failures func 0 s s
| tf_more (n : nat) (s s1 s2 : W) (e : exn) :
    func s = (Raise e, s1) ->
    is_network_error e = true ->
    transient_failures func n s1 s2 ->
    transient_failures func (S n) s s2.

(** The number of [time.sleep] calls in a trace. *)
Definition sleeps (tr : list event) : nat :=
  List.length (filter (fun ev => match ev with Sleep _ => true | _ => false end) tr).


(** The failures at the start of a list of verdicts. *)
Fixpoint leading_failures (l : list bool) : nat :=
  match l with
  | false :: rest => S (leading_failures rest)
  | _ => 0
  end.

(** The failures in a row at the end of a list of verdicts. *)
Definition trailing_failures (l : list bool) : nat := leading_failures (rev l).

(** The counter after the verdicts [l], from [c]. *)
Fixpoint tally (c : nat) (l : list bool) : nat :=
  match l with
  | [] => c
  | success :: rest => tally (if success then 0 else c + 1) rest
  end.






(** ** Exchanges and positions to try the model on *)

(** The orders a calm exchange returns: a buy of 0.125 filled at 200, and
    a sell of the same quantity filled at 206. *)
Definition filled_buy : order :=
  {| order_id := "B-1"; order_symbol := "BTC/USDT"; order_type := "market";
     order_side := "buy"; order_price := Some 200%float;
     order_amount := Some 0.125%float; order_cost := Some 25%float |}.

Definition filled_sell : order :=
  {| order_id := "S-1"; order_symbol := "BTC/USDT"; order_type := "market";
     order_side := "sell"; order_price := Some 206%float;
     order_amount := Some 0.125%float; order_cost := Some 25.75%float |}.

(** An exchange that answers every call, quotes 160 on the ticker and
    holds [free] USDT; the strategy gives the signal [s]. *)
Definition calm_world (s : signal) (free : float) : world :=
  {| fetch_ohlcv_ok := true;
     run_strategy := Ok s;
     fetch_balance_free := fun _ => Ok (Some free);
     fetch_ticker_last := fun _ => Ok (Some 160%float);
     create_market_buy_order := fun _ _ => Ok filled_buy;
     create_market_sell_order := fun _ _ => Ok filled_sell;
     clock := 1700000000 |}.

(** An exchange whose balance endpoint is down. *)
Definition balance_down (s : signal) : world :=
  {| fetch_ohlcv_ok := true;
     run_strategy := Ok s;
     fetch_balance_free := fun _ => Raise NetworkError;
     fetch_ticker_last := fun _ => Ok (Some 160%float);
     create_market_buy_order := fun _ _ => Ok filled_buy;
     create_market_sell_order := fun _ _ => Ok filled_sell;
     clock := 1700000000 |}.

(** An exchange that refuses every order. *)
Definition refusing_world (s : signal) (e : exn) : world :=
  {| fetch_ohlcv_ok := true;
     run_strategy := Ok s;
     fetch_balance_free := fun _ => Ok (Some 100%float);
     fetch_ticker_last := fun _ => Ok (Some 160%float);
     create_market_buy_order := fun _ _ => Raise e;
     create_market_sell_order := fun _ _ => Raise e;
     clock := 1700000000 |}.

(** A position entered at 100. *)
Definition entered_at_100 : order :=
  {| order_id := "B-7"; order_symbol := "BTC/USDT"; order_type := "market";
     order_side := "buy"; order_price := Some 100%float;
     order_amount := Some 0.25%float; order_cost := Some 25%float |}.

(** A position entered at 50000, and an exchange that fills its sell at
    51500. *)
Definition entered_at_50000 : order :=
  {| order_id := "B-9"; order_symbol := "BTC/USDT"; order_type := "market";
     order_side := "buy"; order_price := Some 50000%float;
     order_amount := Some 0.5%float; order_cost := Some 25000%float |}.

Definition sold_at_51500 : order :=
  {| order_id := "S-9"; order_symbol := "BTC/USDT"; order_type := "market";
     order_side := "sell"; order_price := Some 51500%float;
     order_amount := Some 0.5%float; order_cost := Some 25750%float |}.

Definition selling_world : world :=
  {| fetch_ohlcv_ok := true;
     run_strategy := Ok SELL;
     fetch_balance_free := fun _ => Ok (Some 0%float);
     fetch_ticker_last := fun _ => Ok (Some 51400%float);
     create_market_buy_order := fun _ _ => Raise InsufficientFunds;
     create_market_sell_order := fun _ _ => Ok sold_at_51500;
     clock := 1700000000 |}.

(** An exchange that serves no candles: every cycle fails. *)
Definition no_candles : world :=
  {| fetch_ohlcv_ok := false;
     run_strategy := Ok WAIT;
     fetch_balance_free := fun _ => Raise NetworkError;
     fetch_ticker_last := fun _ => Raise NetworkError;
     create_market_buy_order := fun _ _ => Raise NetworkError;
     create_market_sell_order := fun _ _ => Raise NetworkError;
     clock := 1700000000 |}.

(** An exchange endpoint for trying the wrapper out: it keeps the script of
    its answers and the requests it has received, and a submission of
    [req] takes the next answer (a timeout once the script is over). *)
Definition endpoint (R A : Type) : Type := list (result A) * list R.

Definition submit {R A : Type} (req : R) (ep : endpoint R A)
  : result A * endpoint R A :=
  match fst ep with
  | [] => (Raise RequestTimeout, ([], snd ep ++ [req]))
  | answer :: rest => (answer, (rest, snd ep ++ [req]))
  end.

(** An endpoint that times out on every call. *)
Definition dead_endpoint : endpoint string order := ([], []).

(** An endpoint that times out twice and then fills. *)
Definition flaky_endpoint : endpoint string order :=
  ([Raise RequestTimeout; Raise RequestTimeout; Ok filled_buy], []).

(** ** Readings of a trace and of an answer *)

(** Whether a call answered without raising. *)
Definition is_ok {A : Type} (r : result A) : bool :=
  match r with
  | Ok _ => true
  | Raise _ => false
  end.

Definition is_error_note (ev : event) : bool :=
  match ev with
  | NotifyError _ => true
  | _ => false
  end.

Definition is_buy_notice (ev : event) : bool :=
  match ev with
  | NotifyBuyOrder _ _ _ _ => true
  | _ => false
  end.

Definition is_sell_notice (ev : event) : bool :=
  match ev with
  | NotifySellOrder _ _ _ _ _ => true
  | _ => false
  end.

(** [config.py] as shipped: [DRY_RUN] defaults to true. *)
Definition dry_config : config :=
  {| SYMBOL := "BTC/USDT"; POSITION_SIZE_USDT := 20%float;
     DRY_RUN := true; LOOP_INTERVAL := 60 |}.

(** A sell the exchange fills without reporting a price. *)
Definition priceless_sell : order :=
  {| order_id := "S-2"; order_symbol := "BTC/USDT"; order_type := "market";
     order_side := "sell"; order_price := None;
     order_amount := Some 0.125%float; order_cost := None |}.

Definition priceless_world : world :=
  {| fetch_ohlcv_ok := true;
     run_strategy := Ok SELL;
     fetch_balance_free := fun _ => Ok (Some 100%float);
     fetch_ticker_last := fun _ => Ok (Some 160%float);
     create_market_buy_order := fun _ _ => Ok filled_buy;
     create_market_sell_order := fun _ _ => Ok priceless_sell;
     clock := 1700000000 |}.

(** An exchange whose ticker has no last price. *)
Definition quoteless_world : world :=
  {| fetch_ohlcv_ok := true;
     run_strategy := Ok BUY;
     fetch_balance_free := fun _ => Ok (Some 100%float);
     fetch_ticker_last := fun _ => Ok None;
     create_market_buy_order := fun _ _ => Ok filled_buy;
     create_market_sell_order := fun _ _ => Ok filled_sell;
     clock := 1700000000 |}.

(** [after_calls func n s s']: [n] calls of [func] in a row, whatever they
    return, take the world from [s] to [s']. *)
Inductive after_calls {W A : Type} (func : W -> result A * W)
  : nat -> W -> W -> Prop :=
| ac_none (s : W) : after_calls func 0 s s
| ac_more (n : nat) (s s1 s2 : W) (r : result A) :
    func s = (r, s1) ->
    after_calls func n s1 s2 ->
    after_calls func (S n) s s2.

(** An endpoint that times out once and then refuses the order. *)
Definition refusing_endpoint : endpoint string order :=
  ([Raise RequestTimeout; Raise InvalidOrder; Ok filled_buy], []).

(** * More of the repository *)

(** ** execution.py: place_limit_order

    The method reads no attribute but [self.exchange]; its trace has its
    own events.  [side] and [symbol] are strings, [amount] and [price]
    numbers or [None]. *)
Module LimitOrders.

Inductive limit_event : Type :=
| LogLimitDryRun
| CreateLimitBuyOrder (symbol : string) (amount price : pynum)
| CreateLimitSellOrder (symbol : string) (amount price : pynum)
| LogLimitPlaced (id : string)
| LogLimitError.

Definition is_limit_call (ev : limit_event) : bool :=
  match ev with
  | CreateLimitBuyOrder _ _ _ | CreateLimitSellOrder _ _ _ => true
  | _ => false
  end.

(** [place_limit_order(symbol, side, amount, price)]; [answer] is what the
    exchange returns to the one call made. *)
Definition place_limit_order (cfg : config) (answer : result order)
    (symbol side : string) (amount price : pynum)
  : result (option order) * list limit_event :=
  if DRY_RUN cfg then
    match py_format_2f price with
    | Raise e => (Raise e, [])
    | Ok _ => (Ok None, [LogLimitDryRun])
    end
  else
    let request :=
      if String.eqb side "buy"
      then CreateLimitBuyOrder symbol amount price
      else CreateLimitSellOrder symbol amount price in
    match answer with
    | Ok order => (Ok (Some order), [request; LogLimitPlaced (order_id order)])
    | Raise _ => (Ok None, [request; LogLimitError])
    end.

End LimitOrders.

(** ** strategy.py: the signal rules

    A row of the analysed frame, with the columns [check_signal] reads. *)
Module Strategy.

Record bar : Type := {
  close : float;
  volume : float;
  ema_20 : float;
  ema_50 : float;
  ema_200 : float;
  rsi : float;
  volume_avg : float
}.

(** The analysed frame, oldest row first. *)
Definition frame : Type := list bar.

(** [(df.iloc[-1], df.iloc[-2])]; a frame with fewer than two rows has
    none, and the callers below only ask with at least fifty. *)
Definition last_two (df : frame) : option (bar * bar) :=
  match rev df with
  | current :: previous :: _ => Some (current, previous)
  | _ => None
  end.

(** [TradingStrategy.check_signal(df)]. *)
Definition check_signal (df : option frame) : signal :=
  match df with
  | None => WAIT
  | Some rows =>
      if (List.length rows <? 200)%nat then WAIT
      else
        match last_two rows with
        | None => WAIT
        | Some (current, previous) =>
            let setup_long := PrimFloat.ltb (ema_200 current) (close current) in
            let filter_volume := PrimFloat.ltb (volume_avg current) (volume current) in
            let trigger_buy :=
              PrimFloat.ltb (rsi previous) 30%float
              && PrimFloat.ltb 30%float (rsi current) in
            let trigger_sell :=
              PrimFloat.ltb 70%float (rsi previous)
              && PrimFloat.ltb (rsi current) 70%float in
            if setup_long && filter_volume && trigger_buy then BUY
            else if trigger_sell then SELL
            else WAIT
        end
  end.

(** [EMACrossoverStrategy.check_signal(df)]. *)
Definition ema_check_signal (df : option frame) : signal :=
  match df with
  | None => WAIT
  | Some rows =>
      if (List.length rows <? 50)%nat then WAIT
      else
        match last_two rows with
        | None => WAIT
        | Some (current, previous) =>
            if PrimFloat.leb (ema_20 previous) (ema_50 previous)
               && PrimFloat.ltb (ema_50 current) (ema_20 current)
            then BUY
            else if PrimFloat.leb (ema_50 previous) (ema_20 previous)
                    && PrimFloat.ltb (ema_20 current) (ema_50 current)
            then SELL
            else WAIT
        end
  end.

End Strategy.

(** ** config.py and DataHandler.__init__: which exchange is connected *)
Module Connection.

(** The settings read from the environment. *)
Record settings : Type := {
  EXCHANGE : string;
  API_KEY : string;
  API_SECRET : string;
  USE_TESTNET : bool
}.

Inductive config_error : Type :=
| KeyUnset
| SecretUnset
| ExchangeUnknown
| TestnetFlagOff.

Definition supported : list string :=
  ["binance"; "binanceth"; "binance_testnet"; "okx"; "bybit"].

(** [x in supported]. *)
Definition is_supported (x : string) : bool := existsb (String.eqb x) supported.

(** The list [errors] that [validate_config] builds. *)
Definition config_errors (c : settings) : list config_error :=
  (if String.eqb (API_KEY c) "" || String.eqb (API_KEY c) "your_api_key_here"
   then [KeyUnset] else [])
  ++ (if String.eqb (API_SECRET c) "" || String.eqb (API_SECRET c) "your_api_secret_here"
      then [SecretUnset] else [])
  ++ (if negb (is_supported (EXCHANGE c)) then [ExchangeUnknown] else [])
  ++ (if String.eqb (EXCHANGE c) "binance_testnet" && negb (USE_TESTNET c)
      then [TestnetFlagOff] else []).

(** [validate_config()]. *)
Definition validate_config (c : settings) : bool :=
  match config_errors c with
  | [] => true
  | _ => false
  end.

(** The dictionary handed to the ccxt class. *)
Record exchange_config : Type := {
  apiKey : option string;
  secret : option string;
  enableRateLimit : bool;
  defaultType : string;
  urls : option (string * string)
}.

Definition testnet_urls : string * string :=
  ("https://testnet.binance.vision/api", "https://testnet.binance.vision/api").

Section Connect.

(** The exchange classes the installed ccxt has: [getattr(ccxt, name)]
    raises [AttributeError] for any other name. *)
Variable ccxt_has : string -> bool.

Definition getattr_ccxt (name : string) : result string :=
  if ccxt_has name then Ok name else Raise OtherException.

(** [DataHandler.__init__(use_public_only)] up to the construction of the
    exchange object: the class chosen and the configuration given to it.
    The handler logs an exception and raises it again. *)
Definition connect (c : settings) (use_public_only : bool)
  : result (string * exchange_config) :=
  let api_key := if use_public_only then None else Some (API_KEY c) in
  let api_secret := if use_public_only then None else Some (API_SECRET c) in
  let base :=
    {| apiKey := api_key; secret := api_secret; enableRateLimit := true;
       defaultType := "spot"; urls := None |} in
  let with_class (name : string) (ec : exchange_config) :=
    match getattr_ccxt name with
    | Ok cls => Ok (cls, ec)
    | Raise e => Raise e
    end in
  if String.eqb (EXCHANGE c) "binanceth" then
    with_class "binance" base
  else if String.eqb (EXCHANGE c) "binance_testnet"
          || (String.eqb (EXCHANGE c) "binance" && USE_TESTNET c) then
    with_class "binance"
      {| apiKey := api_key; secret := api_secret; enableRateLimit := true;
         defaultType := "spot"; urls := Some testnet_urls |}
  else
    with_class (EXCHANGE c) base.

End Connect.

(** A ccxt that has the three exchanges the configuration can name. *)
Definition ccxt_installed (name : string) : bool :=
  existsb (String.eqb name) ["binance"; "okx"; "bybit"].

End Connection.

(** ** utils.py: calculate_percentage_change *)

(** [calculate_percentage_change(old_value, new_value)] on floats; the
    integer [0] it returns for an old value of zero is read as the float
    zero. *)
Definition calculate_percentage_change (old_value new_value : float) : float :=
  if PrimFloat.eqb old_value 0%float then 0%float
  else ((new_value - old_value) / old_value * 100)%float.

(** ** examples/example_system_risks.py: the circuit breaker *)
Module CircuitBreaker.

(** The attributes of a [CircuitBreaker]; pings and counts are integers. *)
Record breaker : Type := {
  max_ping_ms : Z;
  failure_threshold : Z;
  failure_count : Z;
  is_open : bool
}.

(** [CircuitBreaker(max_ping_ms, failure_threshold)]. *)
Definition create (max_ping threshold : Z) : breaker :=
  {| max_ping_ms := max_ping; failure_threshold := threshold;
     failure_count := 0; is_open := false |}.

(** What [check_network] prints. *)
Inductive notice : Type := HighPing | Opened | Recovered | Closed.

(** [check_network(ping_ms)]: the answer, the breaker afterwards and what
    was printed. *)
Definition check_network (b : breaker) (ping_ms : Z)
  : bool * breaker * list notice :=
  if (max_ping_ms b <? ping_ms)%Z then
    let count := (failure_count b + 1)%Z in
    if (failure_threshold b <=? count)%Z then
      if negb (is_open b) then
        (false,
         {| max_ping_ms := max_ping_ms b; failure_threshold := failure_threshold b;
            failure_count := count; is_open := true |},
         [HighPing; Opened])
      else
        (false,
         {| max_ping_ms := max_ping_ms b; failure_threshold := failure_threshold b;
            failure_count := count; is_open := is_open b |},
         [HighPing])
    else
      (negb (is_open b),
       {| max_ping_ms := max_ping_ms b; failure_threshold := failure_threshold b;
          failure_count := count; is_open := is_open b |},
       [HighPing])
  else
    (true,
     {| max_ping_ms := max_ping_ms b; failure_threshold := failure_threshold b;
        failure_count := 0; is_open := false |},
     (if (0 <? failure_count b)%Z then [Recovered] else [])
     ++ (if is_open b then [Closed] else [])).

(** The breaker after the pings [pings], in order. *)
Fixpoint after_pings (b : breaker) (pings : list Z) : breaker :=
  match pings with
  | [] => b
  | ping :: rest => after_pings (snd (fst (check_network b ping))) rest
  end.

(** The branch the cycle of [check_network_and_trade_bad] takes for a
    ping: the test [ping > 200] comes first, [ping > 400] after it. *)
Inductive branch : Type := HighLatency | Unstable | Normal.

Definition bad_cycle_branch (ping : Z) : branch :=
  if (200 <? ping)%Z then HighLatency
  else if (400 <? ping)%Z then Unstable
  else Normal.

End CircuitBreaker.

(** ** Frames, settings and pings to try the rules on *)

Definition flat_bar : Strategy.bar :=
  {| Strategy.close := 100; Strategy.volume := 10; Strategy.ema_20 := 100;
     Strategy.ema_50 := 100; Strategy.ema_200 := 100; Strategy.rsi := 50;
     Strategy.volume_avg := 10 |}.

Definition bar_with_rsi (r : float) : Strategy.bar :=
  {| Strategy.close := 100; Strategy.volume := 10; Strategy.ema_20 := 100;
     Strategy.ema_50 := 100; Strategy.ema_200 := 100; Strategy.rsi := r;
     Strategy.volume_avg := 10 |}.

Definition bar_with_emas (e20 e50 : float) : Strategy.bar :=
  {| Strategy.close := 100; Strategy.volume := 10; Strategy.ema_20 := e20;
     Strategy.ema_50 := e50; Strategy.ema_200 := 100; Strategy.rsi := 50;
     Strategy.volume_avg := 10 |}.

Definition thai_settings : Connection.settings :=
  {| Connection.EXCHANGE := "binanceth"; Connection.API_KEY := "k";
     Connection.API_SECRET := "s"; Connection.USE_TESTNET := true |}.

(** What holds of a breaker made with [max_ping] and [threshold], between
    two calls. *)
Definition breaker_ok (max_ping threshold : Z) (b : CircuitBreaker.breaker) : Prop :=
  CircuitBreaker.max_ping_ms b = max_ping
  /\ CircuitBreaker.failure_threshold b = threshold
  /\ (0 <= CircuitBreaker.failure_count b)%Z
  /\ CircuitBreaker.is_open b = (threshold <=? CircuitBreaker.failure_count b)%Z.

(** The pings as verdicts: [false] for a ping above the limit. *)
Definition ping_verdicts (max_ping : Z) (pings : list Z) : list bool :=
  map (fun ping => negb (max_ping <? ping)%Z) pings.

(** ** Tactics that run the model *)

Ltac unfold_monad :=
  unfold Utils.notify_buy_order, Utils.notify_sell_order, Utils.notify_error,
    call, bind, try_except, ret, raise, emit, lift, get_position, set_position,
    outcome, state_after, trace in *.

Ltac unfold_model :=
  unfold run_once, Execution.check_balance, Execution.place_market_buy,
    Execution.place_market_sell, Execution.has_open_position,
    Execution.time_time, executor_mode in *;
  unfold_monad.

(** Use an answer of the world where the run asks for it. *)
Ltac feed H := simpl; repeat (rewrite H; simpl).

(** Case analysis on whatever the goal still branches on. *)
Ltac break_match :=
  match goal with
  | |- context [match ?x with _ => _ end] =>
      lazymatch x with
      | context [match _ with _ => _ end] => fail
      | _ => destruct x eqn:?
      end
  end.

Ltac crunch := repeat (simpl in *; try break_match); simpl in *.

(** Membership in an explicit list. *)
Ltac in_list := simpl; repeat (first [left; reflexivity | right]).

(** * Properties *)

(** ** Comparisons of floats *)

Lemma compare_cont_swap (p q : positive) :
  Pos.compare_cont Eq q p = CompOpp (Pos.compare_cont Eq p q).
Proof. exact (eq_sym (Pos.compare_cont_antisym p q Eq)). Qed.

Lemma SFcompare_Lt_swap (x y : spec_float) :
  SFcompare x y = Some Lt -> SFcompare y x = Some Gt.
Proof.
  destruct x as [sx|sx| |sx mx ex], y as [sy|sy| |sy my ey]; simpl;
    try discriminate;
    try (destruct sx; try destruct sy; simpl; congruence).
  destruct sx, sy; simpl; try congruence;
    rewrite (Z.compare_antisym ex ey), (compare_cont_swap mx my);
    destruct (ex ?= ey)%Z; simpl; try congruence;
    destruct (Pos.compare_cont Eq mx my); simpl; congruence.
Qed.

(** [a < b] excludes [a >= b]. *)
Lemma ltb_not_geb (a b : float) :
  PrimFloat.ltb a b = true -> PrimFloat.leb b a = false.
Proof.
  rewrite ltb_spec, leb_spec. unfold SFltb, SFleb. intros H.
  destruct (SFcompare (Prim2SF a) (Prim2SF b)) as [[]|] eqn:E; try discriminate.
  now rewrite (SFcompare_Lt_swap _ _ E).
Qed.

(** [a < b] excludes [a > b]. *)
Lemma ltb_not_gtb (a b : float) :
  PrimFloat.ltb a b = true -> PrimFloat.ltb b a = false.
Proof.
  rewrite !ltb_spec. unfold SFltb. intros H.
  destruct (SFcompare (Prim2SF a) (Prim2SF b)) as [[]|] eqn:E; try discriminate.
  now rewrite (SFcompare_Lt_swap _ _ E).
Qed.

(** Below a number that compares equal to zero there is nothing positive. *)
Lemma ltb_zero_not_pos (a z : float) :
  PrimFloat.eqb z 0%float = true ->
  PrimFloat.ltb a z = true -> PrimFloat.ltb 0%float a = false.
Proof.
  rewrite eqb_spec, !ltb_spec. unfold SFeqb, SFltb.
  change (Prim2SF 0%float) with (S754_zero false).
  destruct (Prim2SF z) as [sz|sz| |sz mz ez], (Prim2SF a) as [sa|sa| |sa ma ea];
    simpl; try discriminate; try reflexivity;
    try (destruct sz; discriminate);
    try (destruct sa; simpl; intros; congruence).
Qed.

(** ** The balance check *)

Section CheckBalance.

Variable w : world.
Variable st : OrderExecutor.
Variable currency : string.

(** A failed balance query makes [check_balance] answer [False]. *)
Lemma check_balance_fetch_raises (required : pynum) (e : exn) :
  fetch_balance_free w currency = Raise e ->
  Execution.check_balance w currency required st
  = (Ok false, st, [FetchBalance; Log LogBalanceError]).
Proof.
  intros H. unfold_model. rewrite H. reflexivity.
Qed.

(** A balance of [None] fails in the log line's format and also ends in
    [False]. *)
Lemma check_balance_none (required : pynum) :
  fetch_balance_free w currency = Ok None ->
  Execution.check_balance w currency required st
  = (Ok false, st, [FetchBalance; Log LogBalanceError]).
Proof.
  intros H. unfold_model. rewrite H. reflexivity.
Qed.

(** With no required amount the answer is [free_balance > 0]. *)
Lemma check_balance_no_requirement (b : float) :
  fetch_balance_free w currency = Ok (Some b) ->
  Execution.check_balance w currency None st
  = (Ok (PrimFloat.ltb 0%float b), st, [FetchBalance; Log LogBalance]).
Proof.
  intros H. unfold_model. rewrite H. reflexivity.
Qed.

(** A balance below the required amount is refused. *)
Lemma check_balance_short (b required : float) :
  fetch_balance_free w currency = Ok (Some b) ->
  PrimFloat.ltb b required = true ->
  outcome (Execution.check_balance w currency (Some required) st) = Ok false
  /\ state_after (Execution.check_balance w currency (Some required) st) = st
  /\ submissions (trace (Execution.check_balance w currency (Some required) st)) = [].
Proof.
  intros H Hlt. unfold_model. rewrite H. simpl.
  unfold float_truthy. destruct (PrimFloat.eqb required 0%float) eqn:Hz; simpl.
  - rewrite (ltb_zero_not_pos _ _ Hz Hlt). auto.
  - rewrite (ltb_not_geb _ _ Hlt). simpl. auto.
Qed.

End CheckBalance.

(** ** A cycle that must not trade *)

Section QuietCycles.

Variable cfg : config.
Variable w : world.

(** A BUY signal met with a position already open ends at the guard. *)
Lemma run_once_buy_positioned (st : OrderExecutor) (p : order) :
  fetch_ohlcv_ok w = true ->
  run_strategy w = Ok BUY ->
  current_position st = Some p ->
  run_once cfg w st = (Ok true, st, [FetchOHLCV; Log LogAlreadyPositioned]).
Proof.
  intros Hdf Hsig Hpos. unfold_model. feed Hdf. feed Hsig. feed Hpos. reflexivity.
Qed.

(** A BUY signal whose balance query raises ends after the balance check. *)
Lemma run_once_buy_balance_raises (st : OrderExecutor) (e : exn) :
  fetch_ohlcv_ok w = true ->
  run_strategy w = Ok BUY ->
  current_position st = None ->
  fetch_balance_free w "USDT" = Raise e ->
  run_once cfg w st
  = (Ok true, st, [FetchOHLCV; FetchBalance; Log LogBalanceError; Log LogSkipBuy]).
Proof.
  intros Hdf Hsig Hpos Hbal. unfold_model.
  feed Hdf. feed Hsig. feed Hpos. feed Hbal. reflexivity.
Qed.

(** A BUY signal with a balance below the position size ends after the
    balance check, whatever the position size is. *)
Lemma run_once_buy_balance_short (st : OrderExecutor) (b : float) :
  fetch_ohlcv_ok w = true ->
  run_strategy w = Ok BUY ->
  current_position st = None ->
  fetch_balance_free w "USDT" = Ok (Some b) ->
  PrimFloat.ltb b (POSITION_SIZE_USDT cfg) = true ->
  outcome (run_once cfg w st) = Ok true
  /\ state_after (run_once cfg w st) = st
  /\ submissions (trace (run_once cfg w st)) = []
  /\ In (Log LogSkipBuy) (trace (run_once cfg w st)).
Proof.
  intros Hdf Hsig Hpos Hbal Hlt. unfold_model.
  feed Hdf. feed Hsig. feed Hpos. feed Hbal. unfold float_truthy.
  destruct (PrimFloat.eqb (POSITION_SIZE_USDT cfg) 0%float) eqn:Hz; simpl.
  - rewrite (ltb_zero_not_pos _ _ Hz Hlt). simpl. tauto.
  - rewrite (ltb_not_geb _ _ Hlt). simpl. tauto.
Qed.

End QuietCycles.

(** C6.  A BUY signal met with a free quote balance below the required
    notional submits no order to the exchange and leaves the executor as it
    was; when no position is open the buy is refused for lack of funds: the
    balance is read, and the cycle logs that the buy is skipped.  With the
    shipped position size of 20 USDT a balance of 15 USDT is such a case. *)
Theorem buy_refused_when_balance_short :
  forall (cfg : config) (w : world) (st : OrderExecutor) (b : float),
    fetch_ohlcv_ok w = true ->
    run_strategy w = Ok BUY ->
    fetch_balance_free w "USDT" = Ok (Some b) ->
    PrimFloat.ltb b (POSITION_SIZE_USDT cfg) = true ->
    submissions (trace (run_once cfg w st)) = []
    /\ state_after (run_once cfg w st) = st
    /\ outcome (run_once cfg w st) = Ok true
    /\ (current_position st = None ->
        In FetchBalance (trace (run_once cfg w st))
        /\ In (Log LogSkipBuy) (trace (run_once cfg w st))).
Proof.
  intros cfg w st b Hdf Hsig Hbal Hlt.
  destruct (current_position st) as [p|] eqn:Hpos.
  - rewrite (run_once_buy_positioned cfg w st p Hdf Hsig Hpos).
    repeat split; discriminate.
  - destruct (run_once_buy_balance_short cfg w st b Hdf Hsig Hpos Hbal Hlt)
      as (Ho & Hs & Hsub & Hlog).
    repeat split; auto.
    unfold_model. feed Hdf. feed Hsig. feed Hpos. feed Hbal. crunch; in_list.
Qed.

(** The scenario of the specification: 15 USDT free, 20 USDT required. *)
Lemma buy_refused_when_balance_short_witness :
  PrimFloat.ltb 15%float (POSITION_SIZE_USDT live_config) = true
  /\ submissions (trace (run_once live_config (calm_world BUY 15%float) init)) = []
  /\ In (Log LogSkipBuy) (trace (run_once live_config (calm_world BUY 15%float) init))
  /\ state_after (run_once live_config (calm_world BUY 15%float) init) = init
  /\ outcome (run_once live_config (calm_world BUY 15%float) init) = Ok true.
Proof.
  pose proof (buy_refused_when_balance_short live_config
                (calm_world BUY 15%float) init 15%float
                eq_refl eq_refl eq_refl eq_refl) as (Hsub & Hst & Hout & Hlog).
  split; [reflexivity|]. split; [exact Hsub|].
  split; [exact (proj2 (Hlog eq_refl))|]. split; [exact Hst | exact Hout].
Defined.

(** C10.  When fetching the balance raises, [check_balance] returns
    [False], and a BUY cycle whose balance query raises submits no order;
    when no required amount is given, [check_balance] returns whether the
    free balance is strictly positive. *)
Theorem check_balance_failure_and_default :
  forall (cfg : config) (w : world) (st : OrderExecutor) (currency : string),
    (forall (required : pynum) (e : exn),
        fetch_balance_free w currency = Raise e ->
        outcome (Execution.check_balance w currency required st) = Ok false)
    /\ (forall (e : exn),
        fetch_ohlcv_ok w = true ->
        run_strategy w = Ok BUY ->
        fetch_balance_free w "USDT" = Raise e ->
        submissions (trace (run_once cfg w st)) = [])
    /\ (forall (b : float),
        fetch_balance_free w currency = Ok (Some b) ->
        outcome (Execution.check_balance w currency None st)
        = Ok (PrimFloat.ltb 0%float b)).
Proof.
  intros cfg w st currency. split; [|split].
  - intros required e H. now rewrite (check_balance_fetch_raises w st currency required e H).
  - intros e Hdf Hsig Hbal. destruct (current_position st) as [p|] eqn:Hpos.
    + now rewrite (run_once_buy_positioned cfg w st p Hdf Hsig Hpos).
    + now rewrite (run_once_buy_balance_raises cfg w st e Hdf Hsig Hpos Hbal).
  - intros b H. now rewrite (check_balance_no_requirement w st currency b H).
Qed.

Lemma check_balance_failure_and_default_witness :
  outcome (Execution.check_balance (balance_down BUY) "USDT" (Some 20%float) init) = Ok false
  /\ submissions (trace (run_once live_config (balance_down BUY) init)) = []
  /\ outcome (Execution.check_balance (calm_world BUY 15%float) "USDT" None init) = Ok true.
Proof.
  pose proof (check_balance_failure_and_default live_config (balance_down BUY) init "USDT")
    as (Hraise & Hcycle & _).
  pose proof (check_balance_failure_and_default live_config (calm_world BUY 15%float) init "USDT")
    as (_ & _ & Hdefault).
  split; [|split].
  - apply (Hraise (Some 20%float) NetworkError). reflexivity.
  - apply (Hcycle NetworkError); reflexivity.
  - apply (Hdefault 15%float). reflexivity.
Defined.

(** ** The position ledger *)

(** While a position is tracked, a cycle submits no buy order, and it
    leaves the position as it is or closes it: a tracked position is never
    replaced by another one. *)
Lemma run_once_keeps_or_closes (cfg : config) (w : world) (st : OrderExecutor)
    (p : order) :
  current_position st = Some p ->
  filter is_buy_submission (trace (run_once cfg w st)) = []
  /\ (current_position (state_after (run_once cfg w st)) = Some p
      \/ current_position (state_after (run_once cfg w st)) = None).
Proof.
  intros Hpos. destruct st as [pos]. simpl in Hpos. subst pos.
  unfold_model. unfold Execution.profit_pct.
  crunch; auto.
Qed.

Lemma positions_at_most_one (st : OrderExecutor) : List.length (positions st) <= 1.
Proof. unfold positions. destruct (current_position st); simpl; lia. Qed.

Lemma positions_for_at_most_one (symbol : string) (st : OrderExecutor) :
  List.length (positions_for symbol st) <= 1.
Proof.
  unfold positions_for, positions.
  destruct (current_position st) as [p|]; simpl; [|lia].
  destruct (String.eqb (order_symbol p) symbol); simpl; lia.
Qed.

(** C1.  In every state the executor reaches from its initial state by
    handling any sequence of cycles (whatever the signals and whatever the
    exchange answers), at most one position is tracked for any symbol; and
    the next cycle keeps that discipline: while a position is tracked it
    submits no buy order, and the tracked position is kept or closed, never
    replaced. *)
Theorem single_position_per_symbol :
  forall (cfg : config) (ws : list world) (symbol : string),
    List.length (positions_for symbol (run_cycles cfg ws init)) <= 1
    /\ forall (w : world) (p : order),
         current_position (run_cycles cfg ws init) = Some p ->
         filter is_buy_submission
           (trace (run_once cfg w (run_cycles cfg ws init))) = []
         /\ (positions (state_after (run_once cfg w (run_cycles cfg ws init))) = [p]
             \/ positions (state_after (run_once cfg w (run_cycles cfg ws init))) = []).
Proof.
  intros cfg ws symbol. split.
  - apply positions_for_at_most_one.
  - intros w p Hpos.
    destruct (run_once_keeps_or_closes cfg w _ p Hpos) as [Hbuy [Hkeep|Hclose]].
    + split; [exact Hbuy|]. left. unfold positions. now rewrite Hkeep.
    + split; [exact Hbuy|]. right. unfold positions. now rewrite Hclose.
Qed.

Lemma single_position_per_symbol_witness :
  current_position (run_cycles live_config [calm_world BUY 100%float] init)
  = Some filled_buy
  /\ filter is_buy_submission
       (trace (run_once live_config (calm_world BUY 100%float)
                 (run_cycles live_config [calm_world BUY 100%float] init))) = []
  /\ (positions (state_after
        (run_once live_config (calm_world BUY 100%float)
           (run_cycles live_config [calm_world BUY 100%float] init))) = [filled_buy]
      \/ positions (state_after
        (run_once live_config (calm_world BUY 100%float)
           (run_cycles live_config [calm_world BUY 100%float] init))) = []).
Proof.
  split; [reflexivity|].
  apply (proj2 (single_position_per_symbol live_config
                  [calm_world BUY 100%float] "BTC/USDT")).
  reflexivity.
Defined.

(** ** Two BUY signals in a row *)

(** What filling means: in live mode, with no position, enough balance
    and a ticker price that is not zero, the order the exchange returns
    becomes the tracked position. *)
Lemma live_buy_fill_opens (cfg : config) (w : world) (st : OrderExecutor)
    (b last : float) (o : order) :
  DRY_RUN cfg = false ->
  fetch_ohlcv_ok w = true ->
  run_strategy w = Ok BUY ->
  current_position st = None ->
  fetch_balance_free w "USDT" = Ok (Some b) ->
  float_truthy (POSITION_SIZE_USDT cfg) = true ->
  PrimFloat.leb (POSITION_SIZE_USDT cfg) b = true ->
  fetch_ticker_last w (SYMBOL cfg) = Ok (Some last) ->
  PrimFloat.eqb last 0%float = false ->
  create_market_buy_order w (SYMBOL cfg) (POSITION_SIZE_USDT cfg / last)%float = Ok o ->
  run_once cfg w st
  = (Ok true, {| current_position := Some o |},
     [FetchOHLCV; FetchBalance; Log LogBalance; Log LogBalanceEnough;
      FetchTicker (SYMBOL cfg); Log LogFiring;
      CreateMarketBuyOrder (SYMBOL cfg) (POSITION_SIZE_USDT cfg / last)%float [];
      Log (LogBought (order_id o));
      NotifyBuyOrder (SYMBOL cfg) last (POSITION_SIZE_USDT cfg) false;
      Log LogBuyDone]).
Proof.
  intros Hlive Hdf Hsig Hpos Hbal Htruthy Hge Hlast Hnz Hbuy. unfold_model.
  feed Hdf. feed Hsig. feed Hpos. feed Hbal. feed Htruthy. feed Hge. feed Hlive.
  feed Hlast. unfold py_div. feed Hnz. feed Hbuy. reflexivity.
Qed.

(** Under [main.py] the dry-run buy cannot build its order: the name [time]
    is unbound in the imported module, so the call raises after the ticker
    was read and tracks no position. *)
Lemma imported_dry_run_buy_raises (cfg : config) (w : world) (st : OrderExecutor)
    (symbol : string) (amount_usdt : float) (last : pynum) :
  DRY_RUN cfg = true ->
  fetch_ticker_last w symbol = Ok last ->
  Execution.place_market_buy cfg Imported w symbol amount_usdt st
  = (Raise NameError, st, [Log LogDryRun; FetchTicker symbol]).
Proof.
  intros Hdry Hlast. unfold_model. feed Hdry. feed Hlast. reflexivity.
Qed.

(** A BUY cycle that opens a position from none submitted exactly one
    order. *)
Lemma buy_that_opens_submits_once (cfg : config) (w : world) (st : OrderExecutor) :
  current_position st = None ->
  current_position (state_after (run_once cfg w st)) <> None ->
  List.length (submissions (trace (run_once cfg w st))) = 1.
Proof.
  intros Hpos. destruct st as [pos]. simpl in Hpos. subst pos.
  unfold submissions. unfold_model. unfold Execution.profit_pct.
  crunch; intros; try congruence; reflexivity.
Qed.

(** C2.  From a state with no open position, two BUY signals in a row with
    no SELL between them, the first of which fills and opens the position,
    submit exactly one order to the exchange: the second BUY stops at the
    open-position guard before the balance is read or any order is
    submitted, and leaves the executor as the first one left it. *)
Theorem two_buys_one_submission :
  forall (cfg : config) (w1 w2 : world) (st : OrderExecutor),
    current_position st = None ->
    fetch_ohlcv_ok w1 = true -> run_strategy w1 = Ok BUY ->
    fetch_ohlcv_ok w2 = true -> run_strategy w2 = Ok BUY ->
    current_position (state_after (run_once cfg w1 st)) <> None ->
    List.length (submissions
              (trace (run_once cfg w1 st)
               ++ trace (run_once cfg w2 (state_after (run_once cfg w1 st))))) = 1
    /\ trace (run_once cfg w2 (state_after (run_once cfg w1 st)))
       = [FetchOHLCV; Log LogAlreadyPositioned]
    /\ state_after (run_once cfg w2 (state_after (run_once cfg w1 st)))
       = state_after (run_once cfg w1 st).
Proof.
  intros cfg w1 w2 st Hnone _ _ Hdf2 Hsig2 Hopen.
  pose proof (buy_that_opens_submits_once cfg w1 st Hnone Hopen) as Hone.
  destruct (current_position (state_after (run_once cfg w1 st))) as [p|] eqn:Hp;
    [|congruence].
  rewrite (run_once_buy_positioned cfg w2 _ p Hdf2 Hsig2 Hp).
  unfold submissions in *. rewrite filter_app, length_app, Hone. simpl.
  auto.
Qed.

Lemma two_buys_one_submission_witness :
  current_position
    (state_after (run_once live_config (calm_world BUY 100%float) init)) <> None
  /\ List.length (submissions
       (trace (run_once live_config (calm_world BUY 100%float) init)
        ++ trace (run_once live_config (calm_world BUY 100%float)
                    (state_after (run_once live_config (calm_world BUY 100%float) init)))))
     = 1.
Proof.
  assert (Hopen : current_position
            (state_after (run_once live_config (calm_world BUY 100%float) init))
          <> None) by (simpl; discriminate).
  split; [exact Hopen|].
  apply (two_buys_one_submission live_config (calm_world BUY 100%float)
           (calm_world BUY 100%float) init); try reflexivity.
  exact Hopen.
Defined.

(** When the first BUY does not fill, the second one submits again. *)
Example two_buys_first_refused :
  List.length (submissions
    (trace_cycles live_config
       [refusing_world BUY InvalidOrder; calm_world BUY 100%float] init)) = 2.
Proof. reflexivity. Qed.

(** ** A sell the exchange refuses *)

(** A live SELL cycle with a position tracked submits a sell for the
    tracked quantity, whatever the exchange answers. *)
Lemma live_sell_submits (cfg : config) (w : world) (st : OrderExecutor) (p : order) :
  DRY_RUN cfg = false ->
  current_position st = Some p ->
  fetch_ohlcv_ok w = true ->
  run_strategy w = Ok SELL ->
  In (CreateMarketSellOrder (SYMBOL cfg) (order_amount p) [])
     (trace (run_once cfg w st)).
Proof.
  intros Hlive Hpos Hdf Hsig. destruct st as [pos]. simpl in Hpos. subst pos.
  unfold_model. unfold Execution.profit_pct.
  feed Hdf. feed Hsig. feed Hlive.
  crunch; in_list.
Qed.

(** C5.  With a position open and the bot trading live, a SELL signal
    whose sell submission the exchange refuses (the call raises) leaves the
    ledger OPEN with the position record exactly as it was; the refusal is
    logged and notified, and the position is tradable in the next cycle: a
    further SELL signal submits the sell for the same quantity again. *)
Theorem refused_sell_keeps_position :
  forall (cfg : config) (w w' : world) (st : OrderExecutor) (p : order) (e : exn),
    DRY_RUN cfg = false ->
    current_position st = Some p ->
    fetch_ohlcv_ok w = true -> run_strategy w = Ok SELL ->
    create_market_sell_order w (SYMBOL cfg) (order_amount p) = Raise e ->
    fetch_ohlcv_ok w' = true -> run_strategy w' = Ok SELL ->
    state_after (run_once cfg w st) = st
    /\ status (state_after (run_once cfg w st)) = OPEN
    /\ trace (run_once cfg w st)
       = [FetchOHLCV; Log LogFiring;
          CreateMarketSellOrder (SYMBOL cfg) (order_amount p) [];
          Log LogOrderError; NotifyError NoteSellError; Log LogSellFailed]
    /\ In (CreateMarketSellOrder (SYMBOL cfg) (order_amount p) [])
          (trace (run_once cfg w' (state_after (run_once cfg w st)))).
Proof.
  intros cfg w w' st p e Hlive Hpos Hdf Hsig Hrej Hdf' Hsig'.
  assert (Hrun : run_once cfg w st
                 = (Ok true, st,
                    [FetchOHLCV; Log LogFiring;
                     CreateMarketSellOrder (SYMBOL cfg) (order_amount p) [];
                     Log LogOrderError; NotifyError NoteSellError;
                     Log LogSellFailed])).
  { unfold_model. feed Hdf. feed Hsig. feed Hpos. feed Hlive. feed Hrej.
    reflexivity. }
  rewrite Hrun. unfold state_after, trace. simpl. repeat split.
  - unfold status. now rewrite Hpos.
  - now apply live_sell_submits.
Qed.

Lemma refused_sell_keeps_position_witness :
  state_after (run_once live_config (refusing_world SELL InvalidOrder)
                 {| current_position := Some entered_at_100 |})
  = {| current_position := Some entered_at_100 |}
  /\ In (CreateMarketSellOrder "BTC/USDT" (Some 0.25%float) [])
        (trace (run_once live_config (calm_world SELL 100%float)
                  (state_after (run_once live_config (refusing_world SELL InvalidOrder)
                                  {| current_position := Some entered_at_100 |})))).
Proof.
  pose proof (refused_sell_keeps_position live_config
                (refusing_world SELL InvalidOrder) (calm_world SELL 100%float)
                {| current_position := Some entered_at_100 |} entered_at_100
                InvalidOrder eq_refl eq_refl eq_refl eq_refl eq_refl eq_refl eq_refl)
    as (Hsame & _ & _ & Hnext).
  split; [exact Hsame | exact Hnext].
Defined.

(** ** The quantity of a market buy *)

(** C7, as the code has it.  A live market buy that fills reads the ticker
    first, submits the base quantity [notional / last] computed from that
    pre-trade quote, and records as the position the order the exchange
    returned, price and amount as the exchange reports them; the quantity
    is not recomputed from the fill price. *)
Theorem buy_quantity_from_ticker_quote :
  forall (cfg : config) (mode : load_mode) (w : world) (st : OrderExecutor)
         (symbol : string) (amount_usdt : float) (o : order),
    DRY_RUN cfg = false ->
    outcome (Execution.place_market_buy cfg mode w symbol amount_usdt st)
    = Ok (Some o) ->
    exists last : float,
      fetch_ticker_last w symbol = Ok (Some last)
      /\ create_market_buy_order w symbol (amount_usdt / last)%float = Ok o
      /\ submissions (trace (Execution.place_market_buy cfg mode w symbol amount_usdt st))
         = [CreateMarketBuyOrder symbol (amount_usdt / last)%float []]
      /\ current_position
           (state_after (Execution.place_market_buy cfg mode w symbol amount_usdt st))
         = Some o.
Proof.
  intros cfg mode w st symbol amount_usdt o Hlive.
  unfold submissions. unfold_model. feed Hlive. unfold py_div.
  destruct (fetch_ticker_last w symbol) as [[last|]|e] eqn:Hlast; simpl;
    try discriminate;
    try (destruct (is_insufficient_funds e); simpl; discriminate).
  destruct (PrimFloat.eqb last 0%float); simpl; try discriminate.
  destruct (create_market_buy_order w symbol (amount_usdt / last)%float)
    as [o'|e] eqn:Hbuy; simpl.
  - intros H. inversion H; subst o'. exists last. repeat split; auto.
  - destruct (is_insufficient_funds e); discriminate.
Qed.

Lemma buy_quantity_from_ticker_quote_witness :
  exists last : float,
    fetch_ticker_last (calm_world BUY 100%float) "BTC/USDT" = Ok (Some last)
    /\ create_market_buy_order (calm_world BUY 100%float) "BTC/USDT"
         (20 / last)%float = Ok filled_buy
    /\ submissions (trace (Execution.place_market_buy live_config Imported
                             (calm_world BUY 100%float) "BTC/USDT" 20%float init))
       = [CreateMarketBuyOrder "BTC/USDT" (20 / last)%float []]
    /\ current_position
         (state_after (Execution.place_market_buy live_config Imported
                         (calm_world BUY 100%float) "BTC/USDT" 20%float init))
       = Some filled_buy.
Proof.
  apply (buy_quantity_from_ticker_quote live_config Imported
           (calm_world BUY 100%float) init "BTC/USDT" 20%float filled_buy);
    reflexivity.
Defined.

(** C7 as stated fails.  The ticker quotes 160, so 20 USDT buys 0.125; the
    exchange fills that quantity at 200.  The position records price 200
    and quantity 0.125, while notional over fill price is 20 / 200. *)
Lemma buy_quantity_not_from_fill_price :
  current_position
    (state_after (run_once live_config (calm_world BUY 100%float) init))
  = Some filled_buy
  /\ order_price filled_buy = Some 200%float
  /\ order_amount filled_buy = Some (20 / 160)%float
  /\ order_amount filled_buy
     <> Some (POSITION_SIZE_USDT live_config / 200)%float.
Proof.
  repeat split.
  intros H.
  assert (E : match order_amount filled_buy with
              | Some q => PrimFloat.eqb q 0.125%float
              | None => false
              end = true) by reflexivity.
  rewrite H in E. vm_compute in E. discriminate E.
Qed.

(** ** The profit percentage of a sell *)

(** A positive number does not compare equal to zero. *)
Lemma positive_not_zero (e : float) :
  PrimFloat.ltb 0%float e = true -> PrimFloat.eqb e 0%float = false.
Proof.
  rewrite ltb_spec, eqb_spec. unfold SFltb, SFeqb.
  change (Prim2SF 0%float) with (S754_zero false).
  destruct (Prim2SF e) as [s|s| |s m ex]; simpl; try discriminate;
    destruct s; simpl; congruence.
Qed.

Lemma profit_pct_value (x e : float) :
  PrimFloat.ltb 0%float e = true ->
  Execution.profit_pct (Some x) (Some e) = Ok ((x - e) / e * 100)%float.
Proof.
  intros He. unfold Execution.profit_pct. simpl.
  now rewrite (positive_not_zero e He).
Qed.

(** C8.  A live sell that fills reports the profit percentage
    [(x - e) / e * 100], for entry price [e > 0] (the price of the tracked
    position) and exit price [x] (the price of the sell order the exchange
    returns): it is on the log line of the sale and, when the position
    carries a quantity, in the sell notification, and the position is
    closed.  Entry 50000 and exit 51500 give 3, printed +3.00; entry 100
    and exit 97 give -3, printed -3.00. *)
Theorem sell_reports_profit_pct :
  (forall (cfg : config) (mode : load_mode) (w : world) (st : OrderExecutor)
          (symbol : string) (p o : order) (e x : float),
      DRY_RUN cfg = false ->
      current_position st = Some p ->
      order_price p = Some e ->
      PrimFloat.ltb 0%float e = true ->
      create_market_sell_order w symbol (order_amount p) = Ok o ->
      order_price o = Some x ->
      In (Log (LogSold (order_id o) ((x - e) / e * 100)%float))
         (trace (Execution.place_market_sell cfg mode w symbol None st))
      /\ forall a : float,
           order_amount p = Some a ->
           Execution.place_market_sell cfg mode w symbol None st
           = (Ok (Some o), {| current_position := None |},
              [Log LogFiring; CreateMarketSellOrder symbol (Some a) [];
               Log (LogSold (order_id o) ((x - e) / e * 100)%float);
               NotifySellOrder symbol x (a * x)%float
                 ((x - e) / e * 100)%float false]))
  /\ (Execution.profit_pct (Some 51500%float) (Some 50000%float) = Ok 3%float
      /\ format_signed_2f 3%float = "+3.00")
  /\ (Execution.profit_pct (Some 97%float) (Some 100%float) = Ok (-3)%float
      /\ format_signed_2f (-3)%float = "-3.00").
Proof.
  split; [|split; split; reflexivity].
  intros cfg mode w st symbol p o e x Hlive Hpos He Hgt Hsell Hx.
  destruct st as [pos]. simpl in Hpos. subst pos.
  pose proof (profit_pct_value x e Hgt) as Hpct.
  split.
  - unfold_model. feed Hlive. feed Hsell. rewrite Hx, He, Hpct. simpl.
    destruct (order_amount p) as [a|]; simpl; in_list.
  - intros a Ha. unfold_model. feed Hlive. rewrite Ha in *. feed Hsell.
    rewrite Hx, He, Hpct. simpl. reflexivity.
Qed.

Lemma sell_reports_profit_pct_witness :
  PrimFloat.ltb 0%float 50000%float = true
  /\ In (Log (LogSold "S-9" 3%float))
        (trace (Execution.place_market_sell live_config Imported selling_world
                  "BTC/USDT" None {| current_position := Some entered_at_50000 |})).
Proof.
  split; [reflexivity|].
  apply (proj1 (proj1 sell_reports_profit_pct live_config Imported selling_world
                  {| current_position := Some entered_at_50000 |} "BTC/USDT"
                  entered_at_50000 sold_at_51500 50000%float 51500%float
                  eq_refl eq_refl eq_refl eq_refl eq_refl eq_refl)).
Defined.

(** The dry-run branch, when [execution.py] runs as a script, computes the
    same percentage from the ticker's last price. *)
Lemma dry_run_sell_profit_pct (cfg : config) (w : world) (symbol : string)
    (p : order) (e x a : float) :
  DRY_RUN cfg = true ->
  order_price p = Some e ->
  order_amount p = Some a ->
  PrimFloat.ltb 0%float e = true ->
  fetch_ticker_last w symbol = Ok (Some x) ->
  trace (Execution.place_market_sell cfg AsScript w symbol None
           {| current_position := Some p |})
  = [Log LogDryRun; FetchTicker symbol;
     NotifySellOrder symbol x (a * x)%float ((x - e) / e * 100)%float true].
Proof.
  intros Hdry He Ha Hgt Hx. pose proof (profit_pct_value x e Hgt) as Hpct.
  unfold_model. feed Hdry. feed Hx. rewrite He, Ha, Hpct. reflexivity.
Qed.

(** ** The retry wrapper *)

Section RetryFacts.

Context {W A : Type}.
Variable func : W -> result A * W.
Variable delay : Z.

Lemma retry_from_exhausted (max_retries : nat) :
  forall (todo attempt : nat) (s s' : W),
    attempt + todo = max_retries ->
    transient_failures func todo s s' ->
    fst (DataHandler.retry_from func max_retries delay attempt todo s) = (Ok None, s')
    /\ sleeps (snd (DataHandler.retry_from func max_retries delay attempt todo s))
       = todo - 1.
Proof.
  induction todo as [|todo IH]; intros attempt s s' Hsum Hfail.
  - inversion Hfail; subst. simpl. auto.
  - inversion Hfail as [|n s0 s1 s2 e Hcall Hnet Hrest]; subst.
    simpl. rewrite Hcall, Hnet.
    destruct (attempt <? attempt + S todo - 1)%nat eqn:Hlt.
    + apply Nat.ltb_lt in Hlt.
      destruct (IH (S attempt) s1 s' ltac:(lia) Hrest) as [Hres Hsl].
      destruct (DataHandler.retry_from func (attempt + S todo) delay (S attempt) todo s1)
        as [[r s''] tr]. simpl in *. split; [exact Hres|].
      unfold sleeps in *. simpl. rewrite Hsl. lia.
    + apply Nat.ltb_ge in Hlt. assert (todo = 0) by lia. subst todo.
      inversion Hrest; subst. simpl. auto.
Qed.

(** Exhausting the attempts gives [None], after [max_retries] calls and
    [max_retries - 1] sleeps. *)
Lemma retry_exhausted (max_retries : nat) (s s' : W) :
  transient_failures func max_retries s s' ->
  fst (DataHandler.retry_on_network_error func max_retries delay s) = (Ok None, s')
  /\ sleeps (snd (DataHandler.retry_on_network_error func max_retries delay s))
     = max_retries - 1.
Proof.
  intros H. unfold DataHandler.retry_on_network_error.
  now apply retry_from_exhausted.
Qed.

(** An exception that is not a network error leaves the wrapper at once. *)
Lemma retry_propagates (max_retries : nat) (s s' : W) (e : exn) :
  func s = (Raise e, s') ->
  is_network_error e = false ->
  DataHandler.retry_on_network_error func (S max_retries) delay s = (Raise e, s', []).
Proof.
  intros Hcall Hnet. unfold DataHandler.retry_on_network_error. simpl.
  now rewrite Hcall, Hnet.
Qed.

(** Two network errors, then an answer: three calls of the same callable,
    two sleeps, and the third call's value. *)
Lemma retry_third_time_lucky (max_retries : nat) (s0 s1 s2 s3 : W)
    (e1 e2 : exn) (v : A) :
  3 <= max_retries ->
  func s0 = (Raise e1, s1) -> is_network_error e1 = true ->
  func s1 = (Raise e2, s2) -> is_network_error e2 = true ->
  func s2 = (Ok v, s3) ->
  DataHandler.retry_on_network_error func max_retries delay s0
  = (Ok (Some v), s3,
     [Log (LogNetworkRetry 1); Sleep delay; Log (LogNetworkRetry 2); Sleep delay]).
Proof.
  intros Hmax H0 N0 H1 N1 H2.
  destruct max_retries as [|[|[|m]]]; try lia.
  unfold DataHandler.retry_on_network_error. simpl.
  rewrite H0, N0. simpl. rewrite H1, N1. simpl. rewrite H2. reflexivity.
Qed.

End RetryFacts.

(** ** Transient failures of a submission *)

(** No cycle asks the exchange for the status of an order. *)
Lemma run_once_never_queries_status (cfg : config) (w : world) (st : OrderExecutor) :
  existsb is_status_query (trace (run_once cfg w st)) = false.
Proof.
  destruct st as [pos]. unfold_model. unfold Execution.profit_pct.
  crunch; reflexivity.
Qed.

(** No cycle attaches a client order id to anything it sends. *)
Lemma run_once_sends_no_key (cfg : config) (w : world) (st : OrderExecutor) :
  Forall (fun ev => client_order_id ev = None) (trace (run_once cfg w st)).
Proof.
  destruct st as [pos]. unfold_model. unfold Execution.profit_pct.
  crunch; repeat constructor.
Qed.

(** A live buy whose submission raises a network error: one attempt, the
    error reported, [None] returned, the executor untouched. *)
Lemma live_buy_network_error (cfg : config) (mode : load_mode) (w : world)
    (st : OrderExecutor) (symbol : string) (amount_usdt last : float) (e : exn) :
  DRY_RUN cfg = false ->
  fetch_ticker_last w symbol = Ok (Some last) ->
  PrimFloat.eqb last 0%float = false ->
  create_market_buy_order w symbol (amount_usdt / last)%float = Raise e ->
  is_network_error e = true ->
  Execution.place_market_buy cfg mode w symbol amount_usdt st
  = (Ok None, st,
     [FetchTicker symbol; Log LogFiring;
      CreateMarketBuyOrder symbol (amount_usdt / last)%float [];
      Log LogOrderError; NotifyError NoteBuyError]).
Proof.
  intros Hlive Hlast Hnz Hbuy Hnet. unfold_model.
  feed Hlive. feed Hlast. unfold py_div. feed Hnz. feed Hbuy.
  destruct e; simpl in *; try discriminate; reflexivity.
Qed.

(** C3, as the code has it.  When [max_retries] attempts in a row raise a
    network error, [retry_on_network_error] returns [None], while an
    exception that is not a network error passes through it at once.  The
    order paths do not go through the wrapper: a live buy makes one
    submission attempt, and when that raises a network error it reports an
    error, returns [None] and leaves the executor as it was; no cycle ever
    queries the status of an order. *)
Theorem transient_failure_not_reconciled :
  (forall (W A : Type) (func : W -> result A * W) (delay : Z)
          (max_retries : nat) (s s' : W),
      transient_failures func max_retries s s' ->
      fst (DataHandler.retry_on_network_error func max_retries delay s)
      = (Ok None, s'))
  /\ (forall (W A : Type) (func : W -> result A * W) (delay : Z)
             (max_retries : nat) (s s' : W) (e : exn),
      func s = (Raise e, s') ->
      is_network_error e = false ->
      DataHandler.retry_on_network_error func (S max_retries) delay s
      = (Raise e, s', []))
  /\ (forall (cfg : config) (mode : load_mode) (w : world) (st : OrderExecutor)
             (symbol : string) (amount_usdt last : float) (e : exn),
      DRY_RUN cfg = false ->
      fetch_ticker_last w symbol = Ok (Some last) ->
      PrimFloat.eqb last 0%float = false ->
      create_market_buy_order w symbol (amount_usdt / last)%float = Raise e ->
      is_network_error e = true ->
      Execution.place_market_buy cfg mode w symbol amount_usdt st
      = (Ok None, st,
         [FetchTicker symbol; Log LogFiring;
          CreateMarketBuyOrder symbol (amount_usdt / last)%float [];
          Log LogOrderError; NotifyError NoteBuyError]))
  /\ (forall (cfg : config) (w : world) (st : OrderExecutor),
      existsb is_status_query (trace (run_once cfg w st)) = false).
Proof.
  split; [|split; [|split]].
  - intros W A func delay max_retries s s' H.
    exact (proj1 (retry_exhausted func delay max_retries s s' H)).
  - intros W A func delay max_retries s s' e. apply retry_propagates.
  - exact live_buy_network_error.
  - exact run_once_never_queries_status.
Qed.

Lemma dead_endpoint_fails_thrice :
  transient_failures (submit "buy") 3 dead_endpoint ([], ["buy"; "buy"; "buy"]).
Proof.
  repeat (eapply tf_more; [reflexivity | reflexivity | simpl]).
  apply tf_none.
Defined.

Lemma transient_failure_not_reconciled_witness :
  fst (DataHandler.retry_on_network_error (submit "buy") 3 10 dead_endpoint)
  = (Ok None, ([], ["buy"; "buy"; "buy"]))
  /\ Execution.place_market_buy live_config Imported
       (refusing_world BUY RequestTimeout) "BTC/USDT" 20%float init
     = (Ok None, init,
        [FetchTicker "BTC/USDT"; Log LogFiring;
         CreateMarketBuyOrder "BTC/USDT" (20 / 160)%float [];
         Log LogOrderError; NotifyError NoteBuyError]).
Proof.
  split.
  - apply (proj1 transient_failure_not_reconciled
             (endpoint string order) order (submit "buy") 10%Z 3 dead_endpoint
             ([], ["buy"; "buy"; "buy"]) dead_endpoint_fails_thrice).
  - apply (proj1 (proj2 (proj2 transient_failure_not_reconciled))
             live_config Imported (refusing_world BUY RequestTimeout) init
             "BTC/USDT" 20%float 160%float RequestTimeout);
      reflexivity.
Defined.

(** C3 as stated fails.  A live BUY whose submission times out: the cycle
    reports success, tracks no position and makes no status query, and the
    next BUY signal submits a second order, as if no order had happened. *)
Lemma timeout_taken_as_no_order :
  outcome (run_once live_config (refusing_world BUY RequestTimeout) init) = Ok true
  /\ current_position
       (state_after (run_once live_config (refusing_world BUY RequestTimeout) init))
     = None
  /\ existsb is_status_query
       (trace_cycles live_config
          [refusing_world BUY RequestTimeout; calm_world BUY 100%float] init)
     = false
  /\ filter is_buy_submission
       (trace_cycles live_config
          [refusing_world BUY RequestTimeout; calm_world BUY 100%float] init)
     = [CreateMarketBuyOrder "BTC/USDT" 0.125%float [];
        CreateMarketBuyOrder "BTC/USDT" 0.125%float []].
Proof. repeat split. Qed.

(** ** Idempotency keys *)

(** C4, as the code has it.  The wrapper calls the one callable it was
    given on every attempt: two network errors followed by an answer make
    exactly three calls and two sleeps and return the third call's value.
    No order the bot submits carries a client order id, on any attempt or
    for any intent. *)
Theorem retry_repeats_the_same_call_without_key :
  (forall (W A : Type) (func : W -> result A * W) (delay : Z)
          (max_retries : nat) (s0 s1 s2 s3 : W) (e1 e2 : exn) (v : A),
      3 <= max_retries ->
      func s0 = (Raise e1, s1) -> is_network_error e1 = true ->
      func s1 = (Raise e2, s2) -> is_network_error e2 = true ->
      func s2 = (Ok v, s3) ->
      DataHandler.retry_on_network_error func max_retries delay s0
      = (Ok (Some v), s3,
         [Log (LogNetworkRetry 1); Sleep delay;
          Log (LogNetworkRetry 2); Sleep delay]))
  /\ (forall (cfg : config) (w : world) (st : OrderExecutor),
      Forall (fun ev => client_order_id ev = None) (trace (run_once cfg w st))).
Proof.
  split.
  - intros W A func delay max_retries s0 s1 s2 s3 e1 e2 v.
    apply retry_third_time_lucky.
  - exact run_once_sends_no_key.
Qed.

Lemma retry_repeats_the_same_call_without_key_witness :
  DataHandler.retry_on_network_error (submit "buy") 3 10 flaky_endpoint
  = (Ok (Some filled_buy), ([], ["buy"; "buy"; "buy"]),
     [Log (LogNetworkRetry 1); Sleep 10; Log (LogNetworkRetry 2); Sleep 10]).
Proof.
  apply (proj1 retry_repeats_the_same_call_without_key
           (endpoint string order) order (submit "buy") 10%Z 3
           flaky_endpoint
           ([Raise RequestTimeout; Ok filled_buy], ["buy"])
           ([Ok filled_buy], ["buy"; "buy"])
           ([], ["buy"; "buy"; "buy"])
           RequestTimeout RequestTimeout filled_buy);
    first [reflexivity | lia].
Defined.

(** C4 as stated fails.  Buy, sell, buy again: three intents, three
    submissions, none with a key; the two buys are the same request. *)
Lemma intents_share_no_key :
  submissions
    (trace_cycles live_config
       [calm_world BUY 100%float; calm_world SELL 100%float;
        calm_world BUY 100%float] init)
  = [CreateMarketBuyOrder "BTC/USDT" 0.125%float [];
     CreateMarketSellOrder "BTC/USDT" (Some 0.125%float) [];
     CreateMarketBuyOrder "BTC/USDT" 0.125%float []]
  /\ map client_order_id
       (submissions
          (trace_cycles live_config
             [calm_world BUY 100%float; calm_world SELL 100%float;
              calm_world BUY 100%float] init))
     = [None; None; None].
Proof. split; reflexivity. Qed.

(** ** The run loop *)

Lemma tally_snoc (c : nat) (l : list bool) (s : bool) :
  tally c (l ++ [s]) = if s then 0 else tally c l + 1.
Proof.
  revert c. induction l as [|x l IH]; intros c; simpl; [reflexivity|apply IH].
Qed.

(** From zero, the counter is the number of failures in a row so far. *)
Lemma tally_trailing (l : list bool) : tally 0 l = trailing_failures l.
Proof.
  induction l as [|s l IH] using rev_ind; [reflexivity|].
  rewrite tally_snoc. unfold trailing_failures in *. rewrite rev_app_distr. simpl.
  destruct s; [reflexivity|]. rewrite IH. lia.
Qed.



Section Loop.

Variable cfg : config.



End Loop.



(** The same run, spelled out. *)
Example five_failures_stop_the_loop :
  outcome (run_loop live_config (repeat (Pass (Cycle no_candles)) 7) init)
  = Ok (Break, 5, [(false, 1); (false, 2); (false, 3); (false, 4); (false, 5)]).
Proof. reflexivity. Qed.

(** A success in between starts the count again. *)
Example success_resets_the_count :
  outcome (run_loop live_config
             (repeat (Pass (Cycle no_candles)) 4
              ++ [Pass (Cycle (calm_world WAIT 0%float))]
              ++ repeat (Pass (Cycle no_candles)) 4) init)
  = Ok (Continue, 4,
        [(false, 1); (false, 2); (false, 3); (false, 4); (true, 0);
         (false, 1); (false, 2); (false, 3); (false, 4)]).
Proof. reflexivity. Qed.

(** * Further properties of the executor and of the cycle *)

(** ** Dry run *)

(** X1.  With [DRY_RUN] on, nothing is ever submitted to the exchange: not
    by [place_market_buy], not by [place_market_sell], not by a cycle,
    however the module was loaded and whatever the exchange answers. *)
Theorem dry_run_never_submits :
  forall (cfg : config) (mode : load_mode) (w : world) (st : OrderExecutor)
         (symbol : string) (amount_usdt : float) (amount : pynum),
    DRY_RUN cfg = true ->
    submissions (trace (Execution.place_market_buy cfg mode w symbol amount_usdt st)) = []
    /\ submissions (trace (Execution.place_market_sell cfg mode w symbol amount st)) = []
    /\ submissions (trace (run_once cfg w st)) = [].
Proof.
  intros cfg mode w st symbol amount_usdt amount Hdry. destruct st as [pos].
  unfold submissions. unfold_model. unfold Execution.profit_pct.
  rewrite !Hdry. repeat split; destruct mode; crunch; reflexivity.
Qed.

Lemma dry_run_never_submits_witness :
  submissions (trace (run_once
     {| SYMBOL := "BTC/USDT"; POSITION_SIZE_USDT := 20%float;
        DRY_RUN := true; LOOP_INTERVAL := 60 |}
     (calm_world BUY 100%float) init)) = [].
Proof.
  apply (dry_run_never_submits
           {| SYMBOL := "BTC/USDT"; POSITION_SIZE_USDT := 20%float;
              DRY_RUN := true; LOOP_INTERVAL := 60 |}
           Imported (calm_world BUY 100%float) init "BTC/USDT" 20%float None
           eq_refl).
Defined.

(** X2.  Under [main.py] with [DRY_RUN] on, no cycle changes the executor:
    the simulated orders are never built, so no position is ever opened or
    closed. *)
Theorem imported_dry_run_keeps_state :
  forall (cfg : config) (w : world) (st : OrderExecutor),
    DRY_RUN cfg = true ->
    state_after (run_once cfg w st) = st.
Proof.
  intros cfg w st Hdry. destruct st as [pos].
  unfold_model. unfold Execution.profit_pct. rewrite !Hdry.
  crunch; reflexivity.
Qed.

Lemma imported_dry_run_keeps_state_witness :
  state_after (run_once dry_config (calm_world BUY 100%float) init) = init.
Proof.
  apply (imported_dry_run_keeps_state dry_config (calm_world BUY 100%float) init eq_refl).
Defined.

(** X3.  Under [main.py] with [DRY_RUN] on, a BUY signal that passes the
    position guard and the balance check fails the cycle: [run_once]
    returns [False] and notifies a main-loop error, and no buy is
    notified. *)
Theorem imported_dry_run_buy_fails_cycle :
  forall (cfg : config) (w : world) (st : OrderExecutor),
    DRY_RUN cfg = true ->
    fetch_ohlcv_ok w = true ->
    run_strategy w = Ok BUY ->
    current_position st = None ->
    outcome (Execution.check_balance w "USDT" (Some (POSITION_SIZE_USDT cfg)) st)
    = Ok true ->
    outcome (run_once cfg w st) = Ok false
    /\ In (NotifyError NoteMainLoop) (trace (run_once cfg w st))
    /\ filter is_buy_notice (trace (run_once cfg w st)) = [].
Proof.
  intros cfg w st Hdry Hdf Hsig Hpos. destruct st as [pos]. simpl in Hpos. subst pos.
  unfold_model. feed Hdf. feed Hsig. feed Hdry.
  crunch; intros; try discriminate;
    repeat match goal with
           | H : Ok _ = Ok _ |- _ => inversion H; clear H; subst
           end;
    simpl in *; try discriminate; repeat split; first [reflexivity | in_list].
Qed.

Lemma imported_dry_run_buy_fails_cycle_witness :
  outcome (run_once dry_config (calm_world BUY 100%float) init) = Ok false
  /\ In (NotifyError NoteMainLoop)
        (trace (run_once dry_config (calm_world BUY 100%float) init))
  /\ filter is_buy_notice
       (trace (run_once dry_config (calm_world BUY 100%float) init)) = [].
Proof.
  apply (imported_dry_run_buy_fails_cycle dry_config (calm_world BUY 100%float) init);
    reflexivity.
Defined.

(** Five such signals in a row stop the bot. *)
Example dry_run_buy_signals_stop_the_bot :
  outcome (run_loop dry_config (repeat (Pass (Cycle (calm_world BUY 100%float))) 6) init)
  = Ok (Break, 5, [(false, 1); (false, 2); (false, 3); (false, 4); (false, 5)]).
Proof. reflexivity. Qed.

(** ** What a cycle returns and sends *)

(** X4.  [run_once] never lets an exception out: it always returns a
    boolean.  When trading live it returns [False] exactly when the candles
    could not be fetched or the strategy raised; an order that fails or is
    refused still gives [True]. *)
Theorem run_once_returns :
  forall (cfg : config) (w : world) (st : OrderExecutor),
    (exists b : bool, outcome (run_once cfg w st) = Ok b)
    /\ (DRY_RUN cfg = false ->
        outcome (run_once cfg w st)
        = Ok (fetch_ohlcv_ok w && is_ok (run_strategy w))).
Proof.
  intros cfg w st. destruct st as [pos]. split.
  - unfold_model. unfold Execution.profit_pct. crunch; eexists; reflexivity.
  - intros Hlive. unfold_model. unfold Execution.profit_pct. rewrite !Hlive.
    destruct (fetch_ohlcv_ok w); destruct (run_strategy w) as [[]|e];
      crunch; reflexivity.
Qed.

Lemma run_once_returns_witness :
  outcome (run_once live_config (refusing_world BUY InvalidOrder) init) = Ok true.
Proof.
  apply (proj2 (run_once_returns live_config (refusing_world BUY InvalidOrder) init)
           eq_refl).
Defined.

(** X5.  A cycle submits at most one order. *)
Theorem at_most_one_submission_per_cycle :
  forall (cfg : config) (w : world) (st : OrderExecutor),
    List.length (submissions (trace (run_once cfg w st))) <= 1.
Proof.
  intros cfg w st. destruct st as [pos]. unfold submissions.
  unfold_model. unfold Execution.profit_pct.
  crunch; lia.
Qed.

(** X6.  The tracked position changes only through a fill.  If a cycle
    leaves a position other than the one it found, the bot trades live,
    the cycle made exactly one submission, and either there was no
    position and the order the exchange returned for the buy is now
    tracked, or there was one and the exchange answered the sell for its
    quantity and nothing is tracked. *)
Theorem position_changes_only_on_fill :
  forall (cfg : config) (w : world) (st : OrderExecutor),
    current_position (state_after (run_once cfg w st)) <> current_position st ->
    DRY_RUN cfg = false
    /\ List.length (submissions (trace (run_once cfg w st))) = 1
    /\ ((current_position st = None
         /\ exists (amount : float) (o : order),
              create_market_buy_order w (SYMBOL cfg) amount = Ok o
              /\ current_position (state_after (run_once cfg w st)) = Some o)
        \/ (exists (p o : order),
              current_position st = Some p
              /\ create_market_sell_order w (SYMBOL cfg) (order_amount p) = Ok o
              /\ current_position (state_after (run_once cfg w st)) = None)).
Proof.
  intros cfg w st. destruct st as [pos]. unfold submissions.
  unfold_model. unfold Execution.profit_pct.
  crunch; intros Hne; try congruence;
    (split; [reflexivity|]); (split; [reflexivity|]);
    first [ left; split; [reflexivity|]; do 2 eexists; split; [eassumption|reflexivity]
          | right; do 2 eexists; split; [reflexivity|]; split; [eassumption|reflexivity] ].
Qed.

Lemma position_changes_only_on_fill_witness :
  current_position (state_after (run_once live_config (calm_world BUY 100%float) init))
  <> current_position init
  /\ List.length (submissions (trace (run_once live_config (calm_world BUY 100%float) init)))
     = 1.
Proof.
  assert (H : current_position
                (state_after (run_once live_config (calm_world BUY 100%float) init))
              <> current_position init) by (simpl; discriminate).
  split; [exact H|].
  exact (proj1 (proj2 (position_changes_only_on_fill live_config
                         (calm_world BUY 100%float) init H))).
Defined.

(** ** Orders the exchange filled or never saw *)

(** X7.  A live sell that the exchange fills is still taken as failed when
    the profit cannot be computed or the proceeds cannot be priced (the
    returned order or the position has no price, the entry price is zero,
    or the position has no amount): the order was submitted, an error is
    notified and no sale, and the position stays tracked, so the next SELL
    signal submits the sell again. *)
Theorem filled_sell_without_figures_keeps_position :
  forall (cfg : config) (w w' : world) (st : OrderExecutor) (p o : order) (e : exn),
    DRY_RUN cfg = false ->
    current_position st = Some p ->
    fetch_ohlcv_ok w = true -> run_strategy w = Ok SELL ->
    create_market_sell_order w (SYMBOL cfg) (order_amount p) = Ok o ->
    (Execution.profit_pct (order_price o) (order_price p) = Raise e
     \/ py_mul (order_amount p) (order_price o) = Raise e) ->
    fetch_ohlcv_ok w' = true -> run_strategy w' = Ok SELL ->
    state_after (run_once cfg w st) = st
    /\ outcome (run_once cfg w st) = Ok true
    /\ submissions (trace (run_once cfg w st))
       = [CreateMarketSellOrder (SYMBOL cfg) (order_amount p) []]
    /\ filter is_error_note (trace (run_once cfg w st)) = [NotifyError NoteSellError]
    /\ filter is_sell_notice (trace (run_once cfg w st)) = []
    /\ In (CreateMarketSellOrder (SYMBOL cfg) (order_amount p) [])
          (trace (run_once cfg w' (state_after (run_once cfg w st)))).
Proof.
  intros cfg w w' st p o e Hlive Hpos Hdf Hsig Hsell Hfig Hdf' Hsig'.
  assert (Hrun : state_after (run_once cfg w st) = st
                 /\ outcome (run_once cfg w st) = Ok true
                 /\ submissions (trace (run_once cfg w st))
                    = [CreateMarketSellOrder (SYMBOL cfg) (order_amount p) []]
                 /\ filter is_error_note (trace (run_once cfg w st))
                    = [NotifyError NoteSellError]
                 /\ filter is_sell_notice (trace (run_once cfg w st)) = []).
  { destruct st as [pos]. simpl in Hpos. subst pos. unfold submissions.
    unfold_model. feed Hdf. feed Hsig. feed Hlive. feed Hsell.
    destruct Hfig as [Hpct | Hmul].
    - rewrite Hpct. simpl. repeat split.
    - destruct (Execution.profit_pct (order_price o) (order_price p)); simpl;
        [rewrite Hmul; simpl|]; repeat split. }
  destruct Hrun as (Hst & Hout & Hsub & Herr & Hnote).
  repeat split; try assumption.
  rewrite Hst. now apply live_sell_submits.
Qed.

Lemma filled_sell_without_figures_keeps_position_witness :
  state_after (run_once live_config priceless_world
                 {| current_position := Some filled_buy |})
  = {| current_position := Some filled_buy |}
  /\ submissions (trace_cycles live_config [priceless_world; priceless_world]
                    {| current_position := Some filled_buy |})
     = [CreateMarketSellOrder "BTC/USDT" (Some 0.125%float) [];
        CreateMarketSellOrder "BTC/USDT" (Some 0.125%float) []].
Proof.
  split; [|reflexivity].
  exact (proj1 (filled_sell_without_figures_keeps_position live_config
                  priceless_world priceless_world
                  {| current_position := Some filled_buy |} filled_buy priceless_sell
                  TypeError eq_refl eq_refl eq_refl eq_refl eq_refl
                  (or_introl eq_refl) eq_refl eq_refl)).
Defined.

(** X8.  A live buy never reaches the exchange's order endpoint when the
    ticker cannot price it: when fetching the ticker raises, when the last
    price is [None], or when it is zero, [place_market_buy] submits no
    order, returns [None] and leaves the executor as it was. *)
Theorem buy_needs_a_usable_quote :
  forall (cfg : config) (mode : load_mode) (w : world) (st : OrderExecutor)
         (symbol : string) (amount_usdt : float),
    DRY_RUN cfg = false ->
    (is_ok (fetch_ticker_last w symbol) = false
     \/ fetch_ticker_last w symbol = Ok None
     \/ exists z : float,
          fetch_ticker_last w symbol = Ok (Some z) /\ PrimFloat.eqb z 0%float = true) ->
    submissions (trace (Execution.place_market_buy cfg mode w symbol amount_usdt st)) = []
    /\ outcome (Execution.place_market_buy cfg mode w symbol amount_usdt st) = Ok None
    /\ state_after (Execution.place_market_buy cfg mode w symbol amount_usdt st) = st.
Proof.
  intros cfg mode w st symbol amount_usdt Hlive Hquote. unfold submissions.
  unfold_model. feed Hlive. unfold py_div.
  destruct Hquote as [Hraise | [Hnone | (z & Hz & Hzero)]].
  - destruct (fetch_ticker_last w symbol) as [a|e]; [discriminate|]. simpl.
    destruct (is_insufficient_funds e); simpl; auto.
  - rewrite Hnone. simpl. auto.
  - rewrite Hz. simpl. rewrite Hzero. simpl. auto.
Qed.

Lemma buy_needs_a_usable_quote_witness :
  submissions (trace (Execution.place_market_buy live_config Imported
                        quoteless_world "BTC/USDT" 20%float init)) = []
  /\ outcome (Execution.place_market_buy live_config Imported
                quoteless_world "BTC/USDT" 20%float init) = Ok None
  /\ state_after (Execution.place_market_buy live_config Imported
                    quoteless_world "BTC/USDT" 20%float init) = init.
Proof.
  apply (buy_needs_a_usable_quote live_config Imported quoteless_world init
           "BTC/USDT" 20%float eq_refl).
  right. left. reflexivity.
Defined.



(** X10.  The dry run of [execution.py] run as a script: a buy of
    [amount_usdt] at ticker price [p] tracks a simulated order of
    [amount_usdt / p] at [p], and the sell that follows at ticker price [x]
    notifies proceeds of [amount_usdt / p * x] and a profit of
    [(x - p) / p * 100] and leaves nothing tracked; neither touches the
    exchange's order endpoints. *)
Theorem dry_run_round_trip :
  forall (cfg : config) (w1 w2 : world) (st : OrderExecutor)
         (symbol : string) (amount_usdt p x : float),
    DRY_RUN cfg = true ->
    fetch_ticker_last w1 symbol = Ok (Some p) ->
    PrimFloat.eqb p 0%float = false ->
    fetch_ticker_last w2 symbol = Ok (Some x) ->
    state_after (Execution.place_market_buy cfg AsScript w1 symbol amount_usdt st)
    = {| current_position :=
           Some {| order_id := String.append "DRY_RUN_" (str_int (clock w1));
                   order_symbol := symbol; order_type := "market";
                   order_side := "buy"; order_price := Some p;
                   order_amount := Some (amount_usdt / p)%float;
                   order_cost := Some amount_usdt |} |}
    /\ Execution.place_market_sell cfg AsScript w2 symbol None
         (state_after (Execution.place_market_buy cfg AsScript w1 symbol amount_usdt st))
       = (Ok (Some {| order_id := String.append "DRY_RUN_SELL_" (str_int (clock w2));
                      order_symbol := symbol; order_type := "market";
                      order_side := "sell"; order_price := Some x;
                      order_amount := Some (amount_usdt / p)%float;
                      order_cost := Some (amount_usdt / p * x)%float |}),
          {| current_position := None |},
          [Log LogDryRun; FetchTicker symbol;
           NotifySellOrder symbol x (amount_usdt / p * x)%float
             ((x - p) / p * 100)%float true]).
Proof.
  intros cfg w1 w2 st symbol amount_usdt p x Hdry H1 Hp H2.
  unfold_model. unfold Execution.profit_pct, py_div, py_sub, py_mul.
  feed Hdry. feed H1. feed Hp. feed H2. split; reflexivity.
Qed.

Lemma dry_run_round_trip_witness :
  Execution.place_market_sell dry_config AsScript (calm_world SELL 100%float)
    "BTC/USDT" None
    (state_after (Execution.place_market_buy dry_config AsScript
                    (calm_world BUY 100%float) "BTC/USDT" 20%float init))
  = (Ok (Some {| order_id := "DRY_RUN_SELL_1700000000";
                 order_symbol := "BTC/USDT"; order_type := "market";
                 order_side := "sell"; order_price := Some 160%float;
                 order_amount := Some 0.125%float;
                 order_cost := Some 20%float |}),
     {| current_position := None |},
     [Log LogDryRun; FetchTicker "BTC/USDT";
      NotifySellOrder "BTC/USDT" 160 20 0 true]).
Proof.
  exact (proj2 (dry_run_round_trip dry_config (calm_world BUY 100%float)
                  (calm_world SELL 100%float) init "BTC/USDT"
                  20%float 160%float 160%float eq_refl eq_refl eq_refl eq_refl)).
Defined.

(** * Further properties of the retry wrapper *)

Section RetryMore.

Context {W A : Type}.
Variable func : W -> result A * W.
Variable delay : Z.

Lemma retry_from_settles (max_retries : nat) :
  forall (k todo attempt : nat) (s s1 s2 : W) (r : result A),
    attempt + todo = max_retries ->
    k < todo ->
    transient_failures func k s s1 ->
    func s1 = (r, s2) ->
    match r with Raise e => is_network_error e = false | Ok _ => True end ->
    fst (DataHandler.retry_from func max_retries delay attempt todo s)
    = (match r with Ok v => Ok (Some v) | Raise e => Raise e end, s2)
    /\ sleeps (snd (DataHandler.retry_from func max_retries delay attempt todo s)) = k.
Proof.
  induction k as [|k IH]; intros todo attempt s s1 s2 r Hsum Hk Hfail Hcall Hr.
  - inversion Hfail; subst. destruct todo as [|todo]; [lia|]. simpl.
    rewrite Hcall. destruct r as [v|e]; simpl; [auto|]. rewrite Hr. auto.
  - inversion Hfail as [|n s0 s' s'' e Hc Hnet Hrest]; subst.
    destruct todo as [|todo]; [lia|]. simpl. rewrite Hc, Hnet.
    assert (Hlt : (attempt <? attempt + S todo - 1)%nat = true)
      by (apply Nat.ltb_lt; lia).
    rewrite Hlt.
    destruct (IH todo (S attempt) s' s1 s2 r ltac:(lia) ltac:(lia) Hrest Hcall Hr)
      as [Hres Hsl].
    destruct (DataHandler.retry_from func (attempt + S todo) delay (S attempt) todo s')
      as [[r' s3] tr]. simpl in *. split; [exact Hres|].
    unfold sleeps in *. simpl. now rewrite Hsl.
Qed.

Lemma retry_from_bounded (max_retries : nat) :
  forall (todo attempt : nat) (s : W),
    attempt + todo = max_retries ->
    exists n : nat,
      n <= todo
      /\ (0 < todo -> 0 < n)
      /\ after_calls func n s
           (snd (fst (DataHandler.retry_from func max_retries delay attempt todo s)))
      /\ sleeps (snd (DataHandler.retry_from func max_retries delay attempt todo s))
         = n - 1.
Proof.
  induction todo as [|todo IH]; intros attempt s Hsum.
  - exists 0. simpl. repeat split; [lia | lia | constructor].
  - simpl. destruct (func s) as [[v|e] s1] eqn:Hcall.
    + exists 1. simpl. repeat split; [lia | lia |].
      eapply ac_more; [exact Hcall | constructor].
    + destruct (is_network_error e).
      * destruct (attempt <? max_retries - 1)%nat eqn:Hlt.
        -- apply Nat.ltb_lt in Hlt.
           destruct (IH (S attempt) s1 ltac:(lia)) as (n & Hn & Hpos & Hcalls & Hsl).
           destruct (DataHandler.retry_from func max_retries delay (S attempt) todo s1)
             as [[r' s3] tr]. simpl in *.
           exists (S n). repeat split; [lia | lia | |].
           ++ eapply ac_more; [exact Hcall | exact Hcalls].
           ++ unfold sleeps in *. simpl. rewrite Hsl.
              assert (0 < n) by (apply Hpos; lia). lia.
        -- exists 1. simpl. repeat split; [lia | lia |].
           eapply ac_more; [exact Hcall | constructor].
      * exists 1. simpl. repeat split; [lia | lia |].
        eapply ac_more; [exact Hcall | constructor].
Qed.

End RetryMore.

(** X11.  [retry_on_network_error] gives the outcome of the first call
    that does not raise a network error, provided it comes within
    [max_retries] attempts: after [k < max_retries] network errors, a value
    is returned and any other exception is passed on, with exactly [k]
    sleeps before it and none after. *)
Theorem retry_returns_first_settled_call :
  forall (W A : Type) (func : W -> result A * W) (delay : Z)
         (max_retries k : nat) (s s1 s2 : W) (r : result A),
    k < max_retries ->
    transient_failures func k s s1 ->
    func s1 = (r, s2) ->
    match r with Raise e => is_network_error e = false | Ok _ => True end ->
    fst (DataHandler.retry_on_network_error func max_retries delay s)
    = (match r with Ok v => Ok (Some v) | Raise e => Raise e end, s2)
    /\ sleeps (snd (DataHandler.retry_on_network_error func max_retries delay s)) = k.
Proof.
  intros W A func delay max_retries k s s1 s2 r Hk Hfail Hcall Hr.
  unfold DataHandler.retry_on_network_error.
  now apply (retry_from_settles func delay max_retries k max_retries 0 s s1 s2 r).
Qed.

Lemma retry_returns_first_settled_call_witness :
  fst (DataHandler.retry_on_network_error (submit "buy") 3 10 refusing_endpoint)
  = (Raise InvalidOrder, ([Ok filled_buy], ["buy"; "buy"]))
  /\ sleeps (snd (DataHandler.retry_on_network_error (submit "buy") 3 10
                    refusing_endpoint)) = 1.
Proof.
  apply (retry_returns_first_settled_call (endpoint string order) order
           (submit "buy") 10%Z 3 1 refusing_endpoint
           ([Raise InvalidOrder; Ok filled_buy], ["buy"])
           ([Ok filled_buy], ["buy"; "buy"])
           (Raise InvalidOrder)).
  - lia.
  - eapply tf_more; [reflexivity | reflexivity | apply tf_none].
  - reflexivity.
  - reflexivity.
Defined.

(** X12.  Whatever the callable does, [retry_on_network_error] calls it at
    most [max_retries] times (not at all when [max_retries] is zero, at
    least once otherwise), and sleeps once between two calls and never
    after the last: the sleeps are one fewer than the calls. *)
Theorem retry_calls_and_sleeps_bounded :
  forall (W A : Type) (func : W -> result A * W) (delay : Z)
         (max_retries : nat) (s : W),
  exists n : nat,
    n <= max_retries
    /\ (0 < max_retries -> 0 < n)
    /\ after_calls func n s
         (snd (fst (DataHandler.retry_on_network_error func max_retries delay s)))
    /\ sleeps (snd (DataHandler.retry_on_network_error func max_retries delay s))
       = n - 1.
Proof.
  intros W A func delay max_retries s. unfold DataHandler.retry_on_network_error.
  now apply retry_from_bounded.
Qed.

(** * Properties of the rest of the repository *)

(** ** More on comparisons of floats *)

(** Nothing is both below 30 and above 70. *)
Lemma below_30_not_above_70 (a : float) :
  PrimFloat.ltb a 30%float = true -> PrimFloat.ltb 70%float a = false.
Proof.
  rewrite !ltb_spec. unfold SFltb.
  change (Prim2SF 30%float) with (S754_finite false 8444249301319680 (-48)).
  change (Prim2SF 70%float) with (S754_finite false 4925812092436480 (-46)).
  destruct (Prim2SF a) as [s|s| |s m e]; cbn -[Z.compare Pos.compare_cont];
    try discriminate; try reflexivity;
    destruct s; cbn -[Z.compare Pos.compare_cont]; try discriminate; try reflexivity.
  destruct (Z.compare_spec e (-48)); destruct (Z.compare_spec (-46) e);
    try lia; try discriminate; try reflexivity.
Qed.

Lemma SFcompare_refl (x : spec_float) :
  x <> S754_nan -> SFcompare x x = Some Eq.
Proof.
  destruct x as [s|s| |s m e]; simpl; try congruence; intros _.
  - now destruct s.
  - destruct s; now rewrite Z.compare_refl, Pos.compare_cont_refl.
Qed.

Lemma is_nan_spec (a : float) : PrimFloat.is_nan a = true -> Prim2SF a = S754_nan.
Proof.
  unfold PrimFloat.is_nan. rewrite eqb_spec. unfold SFeqb. intros H.
  destruct (Prim2SF a) as [s|s| |s m e] eqn:E; try reflexivity;
    rewrite SFcompare_refl in H by discriminate; discriminate.
Qed.

(** A NaN is neither below nor above anything. *)
Lemma nan_compares_false (a b : float) :
  PrimFloat.is_nan a = true ->
  PrimFloat.ltb a b = false /\ PrimFloat.ltb b a = false.
Proof.
  intros H. apply is_nan_spec in H. rewrite !ltb_spec. unfold SFltb. rewrite H.
  split; [reflexivity|]. now destruct (Prim2SF b).
Qed.

(** ** The signal rules *)

Section Signals.

Import Strategy.

Lemma last_two_of_snoc (rest : frame) (previous current : bar) :
  last_two (rest ++ [previous; current]) = Some (current, previous).
Proof. unfold last_two. now rewrite rev_app_distr. Qed.

Lemma check_signal_unfold (rest : frame) (previous current : bar) :
  200 <= List.length (rest ++ [previous; current]) ->
  check_signal (Some (rest ++ [previous; current]))
  = if PrimFloat.ltb (ema_200 current) (close current)
       && PrimFloat.ltb (volume_avg current) (volume current)
       && (PrimFloat.ltb (rsi previous) 30%float
           && PrimFloat.ltb 30%float (rsi current))
    then BUY
    else if PrimFloat.ltb 70%float (rsi previous)
            && PrimFloat.ltb (rsi current) 70%float
    then SELL
    else WAIT.
Proof.
  intros Hlen. unfold check_signal.
  destruct (List.length (rest ++ [previous; current]) <? 200)%nat eqn:Hlt;
    [apply Nat.ltb_lt in Hlt; lia|].
  now rewrite last_two_of_snoc.
Qed.

Lemma ema_check_signal_unfold (rest : frame) (previous current : bar) :
  50 <= List.length (rest ++ [previous; current]) ->
  ema_check_signal (Some (rest ++ [previous; current]))
  = if PrimFloat.leb (ema_20 previous) (ema_50 previous)
       && PrimFloat.ltb (ema_50 current) (ema_20 current)
    then BUY
    else if PrimFloat.leb (ema_50 previous) (ema_20 previous)
            && PrimFloat.ltb (ema_20 current) (ema_50 current)
    then SELL
    else WAIT.
Proof.
  intros Hlen. unfold ema_check_signal.
  destruct (List.length (rest ++ [previous; current]) <? 50)%nat eqn:Hlt;
    [apply Nat.ltb_lt in Hlt; lia|].
  now rewrite last_two_of_snoc.
Qed.

End Signals.

(** X13.  On a frame of at least 200 rows the RSI strategy says BUY
    exactly when the close is above EMA 200, the volume above its average
    and the RSI has crossed up through 30, and SELL exactly when the RSI
    has crossed down through 70: the two crossings exclude each other, so
    the BUY test standing first never hides a SELL, and a SELL needs
    neither the trend nor the volume. *)
Theorem rsi_signal_rules :
  forall (rest : Strategy.frame) (previous current : Strategy.bar),
    200 <= List.length (rest ++ [previous; current]) ->
    (Strategy.check_signal (Some (rest ++ [previous; current])) = BUY
     <-> PrimFloat.ltb (Strategy.ema_200 current) (Strategy.close current) = true
         /\ PrimFloat.ltb (Strategy.volume_avg current) (Strategy.volume current) = true
         /\ PrimFloat.ltb (Strategy.rsi previous) 30%float = true
         /\ PrimFloat.ltb 30%float (Strategy.rsi current) = true)
    /\ (Strategy.check_signal (Some (rest ++ [previous; current])) = SELL
        <-> PrimFloat.ltb 70%float (Strategy.rsi previous) = true
            /\ PrimFloat.ltb (Strategy.rsi current) 70%float = true).
Proof.
  intros rest previous current Hlen. rewrite (check_signal_unfold _ _ _ Hlen).
  pose proof (below_30_not_above_70 (Strategy.rsi previous)) as Hex.
  destruct (PrimFloat.ltb (Strategy.ema_200 current) (Strategy.close current));
    destruct (PrimFloat.ltb (Strategy.volume_avg current) (Strategy.volume current));
    destruct (PrimFloat.ltb (Strategy.rsi previous) 30%float);
    destruct (PrimFloat.ltb 30%float (Strategy.rsi current));
    try (rewrite (Hex eq_refl));
    destruct (PrimFloat.ltb 70%float (Strategy.rsi previous));
    destruct (PrimFloat.ltb (Strategy.rsi current) 70%float);
    simpl; clear Hex; split; split; intros;
    intuition (try discriminate; try reflexivity).
Qed.

Lemma rsi_signal_rules_witness :
  Strategy.check_signal
    (Some (repeat flat_bar 198 ++ [bar_with_rsi 75%float; bar_with_rsi 65%float]))
  = SELL.
Proof.
  apply (proj2 (rsi_signal_rules (repeat flat_bar 198)
                  (bar_with_rsi 75%float) (bar_with_rsi 65%float)
                  ltac:(vm_compute; lia))).
  split; reflexivity.
Defined.

(** X14.  An RSI that is not a number, in the last row or in the one
    before it, gives WAIT on any frame: no trade is signalled from an
    undefined indicator. *)
Theorem nan_rsi_waits :
  forall (rest : Strategy.frame) (previous current : Strategy.bar),
    PrimFloat.is_nan (Strategy.rsi current) = true
    \/ PrimFloat.is_nan (Strategy.rsi previous) = true ->
    Strategy.check_signal (Some (rest ++ [previous; current])) = WAIT.
Proof.
  intros rest previous current Hnan. unfold Strategy.check_signal.
  destruct (List.length (rest ++ [previous; current]) <? 200)%nat; [reflexivity|].
  rewrite last_two_of_snoc.
  destruct Hnan as [H | H].
  - destruct (nan_compares_false (Strategy.rsi current) 30%float H) as [_ H30].
    destruct (nan_compares_false (Strategy.rsi current) 70%float H) as [H70 _].
    rewrite H30, H70, !andb_false_r. reflexivity.
  - destruct (nan_compares_false (Strategy.rsi previous) 30%float H) as [H30 _].
    destruct (nan_compares_false (Strategy.rsi previous) 70%float H) as [_ H70].
    rewrite H30, H70. simpl. rewrite !andb_false_r. reflexivity.
Qed.

Lemma nan_rsi_waits_witness :
  Strategy.check_signal
    (Some (repeat flat_bar 198 ++ [bar_with_rsi 75%float; bar_with_rsi nan]))
  = WAIT.
Proof.
  apply (nan_rsi_waits (repeat flat_bar 198) (bar_with_rsi 75%float) (bar_with_rsi nan)).
  left. reflexivity.
Defined.

(** X15.  On a frame of at least 50 rows the EMA crossover strategy says
    BUY exactly on a golden cross (EMA 20 at or below EMA 50 before, above
    it now) and SELL exactly on a death cross (at or above before, below
    now); the two exclude each other. *)
Theorem ema_crossover_rules :
  forall (rest : Strategy.frame) (previous current : Strategy.bar),
    50 <= List.length (rest ++ [previous; current]) ->
    (Strategy.ema_check_signal (Some (rest ++ [previous; current])) = BUY
     <-> PrimFloat.leb (Strategy.ema_20 previous) (Strategy.ema_50 previous) = true
         /\ PrimFloat.ltb (Strategy.ema_50 current) (Strategy.ema_20 current) = true)
    /\ (Strategy.ema_check_signal (Some (rest ++ [previous; current])) = SELL
        <-> PrimFloat.leb (Strategy.ema_50 previous) (Strategy.ema_20 previous) = true
            /\ PrimFloat.ltb (Strategy.ema_20 current) (Strategy.ema_50 current) = true).
Proof.
  intros rest previous current Hlen. rewrite (ema_check_signal_unfold _ _ _ Hlen).
  pose proof (ltb_not_gtb (Strategy.ema_50 current) (Strategy.ema_20 current)) as Hex.
  destruct (PrimFloat.leb (Strategy.ema_20 previous) (Strategy.ema_50 previous));
    destruct (PrimFloat.ltb (Strategy.ema_50 current) (Strategy.ema_20 current));
    try (rewrite (Hex eq_refl));
    destruct (PrimFloat.leb (Strategy.ema_50 previous) (Strategy.ema_20 previous));
    destruct (PrimFloat.ltb (Strategy.ema_20 current) (Strategy.ema_50 current));
    simpl; clear Hex; split; split; intros;
    intuition (try discriminate; try reflexivity).
Qed.

Lemma ema_crossover_rules_witness :
  Strategy.ema_check_signal
    (Some (repeat flat_bar 48 ++ [bar_with_emas 100 100; bar_with_emas 99 100]))
  = SELL.
Proof.
  apply (proj2 (ema_crossover_rules (repeat flat_bar 48)
                  (bar_with_emas 100 100) (bar_with_emas 99 100)
                  ltac:(vm_compute; lia))).
  split; reflexivity.
Defined.

(** ** Limit orders *)

(** X16.  When trading live, [place_limit_order] never raises and makes
    exactly one exchange call; that call is a limit buy only when [side]
    is the exact string [buy], and a limit sell for every other value
    (so [BUY] in capitals sells); it returns the exchange's order, or
    [None] when the call raised.  In a dry run it calls nothing. *)
Theorem limit_order_side_routing :
  forall (cfg : config) (answer : result order) (symbol side : string)
         (amount price : pynum),
    (DRY_RUN cfg = false ->
     fst (LimitOrders.place_limit_order cfg answer symbol side amount price)
     = Ok (match answer with Ok o => Some o | Raise _ => None end)
     /\ filter LimitOrders.is_limit_call
          (snd (LimitOrders.place_limit_order cfg answer symbol side amount price))
        = [if String.eqb side "buy"
           then LimitOrders.CreateLimitBuyOrder symbol amount price
           else LimitOrders.CreateLimitSellOrder symbol amount price]
     /\ (side <> "buy" ->
         In (LimitOrders.CreateLimitSellOrder symbol amount price)
            (snd (LimitOrders.place_limit_order cfg answer symbol side amount price))))
    /\ (DRY_RUN cfg = true ->
        filter LimitOrders.is_limit_call
          (snd (LimitOrders.place_limit_order cfg answer symbol side amount price))
        = []).
Proof.
  intros cfg answer symbol side amount price.
  unfold LimitOrders.place_limit_order. split; intros Hmode; rewrite Hmode.
  - split; [destruct answer; reflexivity|]. split.
    + destruct answer; simpl; destruct (String.eqb side "buy"); reflexivity.
    + intros Hside. apply String.eqb_neq in Hside. rewrite Hside.
      destruct answer; simpl; auto.
  - destruct (py_format_2f price); reflexivity.
Qed.

Lemma limit_order_side_routing_witness :
  filter LimitOrders.is_limit_call
    (snd (LimitOrders.place_limit_order live_config (Ok filled_sell)
            "BTC/USDT" "BUY" (Some 0.125%float) (Some 200%float)))
  = [LimitOrders.CreateLimitSellOrder "BTC/USDT" (Some 0.125%float) (Some 200%float)].
Proof.
  exact (proj1 (proj2 (proj1 (limit_order_side_routing live_config (Ok filled_sell)
                                "BTC/USDT" "BUY" (Some 0.125%float) (Some 200%float))
                         eq_refl))).
Defined.

(** ** Which exchange is connected *)

Section Connecting.

Import Connection.

Variable ccxt_has : string -> bool.
Hypothesis has_binance : ccxt_has "binance" = true.
Hypothesis has_okx : ccxt_has "okx" = true.
Hypothesis has_bybit : ccxt_has "bybit" = true.

Lemma validated_exchange (c : settings) :
  validate_config c = true ->
  EXCHANGE c = "binance" \/ EXCHANGE c = "binanceth"
  \/ EXCHANGE c = "binance_testnet" \/ EXCHANGE c = "okx" \/ EXCHANGE c = "bybit".
Proof.
  unfold validate_config, config_errors, is_supported, supported. simpl.
  destruct (String.eqb (EXCHANGE c) "binance") eqn:E1;
    [apply String.eqb_eq in E1; auto|].
  destruct (String.eqb (EXCHANGE c) "binanceth") eqn:E2;
    [apply String.eqb_eq in E2; auto|].
  destruct (String.eqb (EXCHANGE c) "binance_testnet") eqn:E3;
    [apply String.eqb_eq in E3; auto|].
  destruct (String.eqb (EXCHANGE c) "okx") eqn:E4;
    [apply String.eqb_eq in E4; auto 6|].
  destruct (String.eqb (EXCHANGE c) "bybit") eqn:E5;
    [apply String.eqb_eq in E5; auto 6|].
  simpl.
  destruct (String.eqb (API_KEY c) "" || String.eqb (API_KEY c) "your_api_key_here");
    destruct (String.eqb (API_SECRET c) ""
              || String.eqb (API_SECRET c) "your_api_secret_here");
    simpl; discriminate.
Qed.

Lemma connect_validated (c : settings) (use_public_only : bool) :
  validate_config c = true ->
  exists (cls : string) (ec : exchange_config),
    connect ccxt_has c use_public_only = Ok (cls, ec)
    /\ In cls ["binance"; "okx"; "bybit"]
    /\ (In (EXCHANGE c) ["binance"; "binanceth"; "binance_testnet"] ->
        cls = "binance").
Proof.
  intros Hvalid.
  destruct (validated_exchange c Hvalid) as [E | [E | [E | [E | E]]]];
    unfold connect, getattr_ccxt; rewrite E; simpl;
    try rewrite has_binance; try rewrite has_okx; try rewrite has_bybit.
  - destruct (USE_TESTNET c); simpl; rewrite ?has_binance;
      do 2 eexists; (split; [reflexivity|]); simpl; auto.
  - do 2 eexists; (split; [reflexivity|]); simpl; auto.
  - do 2 eexists; (split; [reflexivity|]); simpl; auto.
  - do 2 eexists; (split; [reflexivity|]); simpl. split; [auto|].
    intros [H | [H | [H | []]]]; discriminate.
  - do 2 eexists; (split; [reflexivity|]); simpl. split; [auto|].
    intros [H | [H | [H | []]]]; discriminate.
Qed.

Lemma connect_testnet (c : settings) (use_public_only : bool)
    (cls : string) (ec : exchange_config) :
  connect ccxt_has c use_public_only = Ok (cls, ec) ->
  (urls ec = Some testnet_urls
   <-> EXCHANGE c = "binance_testnet"
       \/ (EXCHANGE c = "binance" /\ USE_TESTNET c = true))
  /\ (EXCHANGE c = "binanceth" -> urls ec = None /\ cls = "binance").
Proof.
  unfold connect, getattr_ccxt.
  destruct (String.eqb (EXCHANGE c) "binanceth") eqn:Eth.
  - apply String.eqb_eq in Eth. rewrite has_binance. intros H. inversion H; subst.
    simpl. split; [|auto]. split; [discriminate|].
    intros [E | [E _]]; rewrite Eth in E; discriminate.
  - apply String.eqb_neq in Eth.
    destruct (String.eqb (EXCHANGE c) "binance_testnet") eqn:Etest; simpl.
    + apply String.eqb_eq in Etest. rewrite has_binance. intros H. inversion H; subst.
      simpl. split; [|congruence]. split; auto.
    + apply String.eqb_neq in Etest.
      destruct (String.eqb (EXCHANGE c) "binance") eqn:Ebin; simpl.
      * apply String.eqb_eq in Ebin. destruct (USE_TESTNET c) eqn:Eflag;
          rewrite ?has_binance, ?Ebin, ?has_binance;
          intros H; inversion H; subst; simpl; (split; [|congruence]).
        -- split; auto.
        -- split; [discriminate|]. intros [E | [_ E]]; congruence.
      * apply String.eqb_neq in Ebin.
        destruct (ccxt_has (EXCHANGE c)); [|discriminate].
        intros H; inversion H; subst; simpl. split; [|congruence].
        split; [discriminate|]. intros [E | [E _]]; congruence.
Qed.

End Connecting.

(** X17.  A configuration that [validate_config] accepts always names an
    exchange class ccxt has, provided ccxt has binance, okx and bybit:
    [DataHandler.__init__] finds its class without raising, the class is
    one of those three, and it is binance for each of [binance],
    [binanceth] and [binance_testnet]. *)
Theorem validated_config_connects :
  forall (ccxt_has : string -> bool) (c : Connection.settings)
         (use_public_only : bool),
    ccxt_has "binance" = true ->
    ccxt_has "okx" = true ->
    ccxt_has "bybit" = true ->
    Connection.validate_config c = true ->
    exists (cls : string) (ec : Connection.exchange_config),
      Connection.connect ccxt_has c use_public_only = Ok (cls, ec)
      /\ In cls ["binance"; "okx"; "bybit"]
      /\ (In (Connection.EXCHANGE c) ["binance"; "binanceth"; "binance_testnet"] ->
          cls = "binance").
Proof.
  intros ccxt_has c use_public_only Hb Ho Hy Hvalid.
  now apply connect_validated.
Qed.

Lemma validated_config_connects_witness :
  exists (cls : string) (ec : Connection.exchange_config),
    Connection.connect Connection.ccxt_installed thai_settings false = Ok (cls, ec)
    /\ In cls ["binance"; "okx"; "bybit"]
    /\ (In (Connection.EXCHANGE thai_settings)
           ["binance"; "binanceth"; "binance_testnet"] ->
        cls = "binance").
Proof.
  apply (validated_config_connects Connection.ccxt_installed thai_settings false);
    reflexivity.
Defined.

(** X18.  The exchange object gets the testnet URLs exactly when
    [EXCHANGE] is [binance_testnet], or is [binance] with [USE_TESTNET]
    on.  With [EXCHANGE=binanceth] the flag is not looked at: the class is
    binance and no testnet URL is set, so the live endpoints are used even
    when [USE_TESTNET] is on. *)
Theorem testnet_urls_only_for_binance :
  forall (ccxt_has : string -> bool) (c : Connection.settings)
         (use_public_only : bool) (cls : string) (ec : Connection.exchange_config),
    ccxt_has "binance" = true ->
    Connection.connect ccxt_has c use_public_only = Ok (cls, ec) ->
    (Connection.urls ec = Some Connection.testnet_urls
     <-> Connection.EXCHANGE c = "binance_testnet"
         \/ (Connection.EXCHANGE c = "binance" /\ Connection.USE_TESTNET c = true))
    /\ (Connection.EXCHANGE c = "binanceth" ->
        Connection.urls ec = None /\ cls = "binance").
Proof.
  intros ccxt_has c use_public_only cls ec Hb Hconn.
  now apply (connect_testnet ccxt_has Hb c use_public_only).
Qed.

Lemma testnet_urls_only_for_binance_witness :
  Connection.USE_TESTNET thai_settings = true
  /\ Connection.connect Connection.ccxt_installed thai_settings false
     = Ok ("binance",
           {| Connection.apiKey := Some "k"; Connection.secret := Some "s";
              Connection.enableRateLimit := true; Connection.defaultType := "spot";
              Connection.urls := None |})
  /\ Connection.urls {| Connection.apiKey := Some "k"; Connection.secret := Some "s";
                        Connection.enableRateLimit := true;
                        Connection.defaultType := "spot";
                        Connection.urls := None |} = None.
Proof.
  split; [reflexivity|]. split; [reflexivity|].
  exact (proj1 (proj2 (testnet_urls_only_for_binance Connection.ccxt_installed
                         thai_settings false "binance" _ eq_refl eq_refl) eq_refl)).
Defined.

(** ** Percentages *)

(** X19.  [calculate_percentage_change] computes what the sell path
    computes inline, and differs from it only at an old value of zero:
    where [place_market_sell] raises [ZeroDivisionError] on an entry price
    of zero, the helper returns 0. *)
Theorem percentage_change_agrees_with_profit :
  forall (old_value new_value : float),
    (PrimFloat.eqb old_value 0%float = false ->
     Execution.profit_pct (Some new_value) (Some old_value)
     = Ok (calculate_percentage_change old_value new_value))
    /\ (PrimFloat.eqb old_value 0%float = true ->
        calculate_percentage_change old_value new_value = 0%float
        /\ Execution.profit_pct (Some new_value) (Some old_value)
           = Raise ZeroDivisionError).
Proof.
  intros old_value new_value.
  unfold calculate_percentage_change, Execution.profit_pct. simpl.
  split; intros H; rewrite H; auto.
Qed.

Lemma percentage_change_agrees_with_profit_witness :
  Execution.profit_pct (Some 51500%float) (Some 50000%float)
  = Ok (calculate_percentage_change 50000 51500)
  /\ calculate_percentage_change 0 51500 = 0%float.
Proof.
  split.
  - exact (proj1 (percentage_change_agrees_with_profit 50000 51500) eq_refl).
  - exact (proj1 (proj2 (percentage_change_agrees_with_profit 0 51500) eq_refl)).
Defined.

(** ** The circuit breaker *)

Section Breaker.

Import CircuitBreaker.

Variables max_ping threshold : Z.
Hypothesis threshold_positive : (1 <= threshold)%Z.

Lemma create_ok : breaker_ok max_ping threshold (create max_ping threshold).
Proof.
  unfold breaker_ok, create. simpl. repeat split; lia.
Qed.

Lemma check_network_step (b : breaker) (ping : Z) :
  breaker_ok max_ping threshold b ->
  breaker_ok max_ping threshold (snd (fst (check_network b ping)))
  /\ failure_count (snd (fst (check_network b ping)))
     = (if (max_ping <? ping)%Z then failure_count b + 1 else 0)%Z
  /\ fst (fst (check_network b ping))
     = negb (is_open (snd (fst (check_network b ping)))).
Proof.
  intros (Hmax & Hthr & Hpos & Hopen). unfold check_network, breaker_ok.
  rewrite Hmax, Hthr.
  destruct (max_ping <? ping)%Z eqn:Hhigh.
  - destruct (threshold <=? failure_count b + 1)%Z eqn:Hreach.
    + destruct (is_open b) eqn:Hwas; simpl; rewrite ?Hreach;
        repeat split; auto; lia.
    + assert (Hclosed : is_open b = false).
      { rewrite Hopen. apply Z.leb_gt. apply Z.leb_gt in Hreach. lia. }
      rewrite Hclosed. simpl. rewrite Hreach. repeat split; auto; lia.
  - simpl. repeat split; auto; lia.
Qed.

Lemma after_pings_count (pings : list Z) :
  forall (b : breaker) (c : nat),
    breaker_ok max_ping threshold b ->
    failure_count b = Z.of_nat c ->
    breaker_ok max_ping threshold (after_pings b pings)
    /\ failure_count (after_pings b pings)
       = Z.of_nat (tally c (ping_verdicts max_ping pings)).
Proof.
  induction pings as [|ping rest IH]; intros b c Hok Hc; simpl; [auto|].
  destruct (check_network_step b ping Hok) as (Hok' & Hcount & _).
  apply (IH _ (if negb (max_ping <? ping)%Z then 0 else c + 1) Hok').
  rewrite Hcount, Hc. destruct (max_ping <? ping)%Z; simpl; lia.
Qed.

Lemma breaker_after_pings (pings : list Z) (ping : Z) :
  failure_count (snd (fst (check_network (after_pings (create max_ping threshold) pings) ping)))
  = Z.of_nat (trailing_failures (ping_verdicts max_ping (pings ++ [ping])))
  /\ is_open (snd (fst (check_network (after_pings (create max_ping threshold) pings) ping)))
     = (threshold <=? Z.of_nat (trailing_failures (ping_verdicts max_ping (pings ++ [ping]))))%Z
  /\ fst (fst (check_network (after_pings (create max_ping threshold) pings) ping))
     = negb (threshold <=? Z.of_nat (trailing_failures (ping_verdicts max_ping (pings ++ [ping]))))%Z.
Proof.
  destruct (after_pings_count pings (create max_ping threshold) 0 create_ok eq_refl)
    as [Hok Hcount].
  destruct (check_network_step _ ping Hok) as (Hok' & Hcount' & Hanswer).
  assert (Hfinal :
    failure_count (snd (fst (check_network (after_pings (create max_ping threshold) pings) ping)))
    = Z.of_nat (trailing_failures (ping_verdicts max_ping (pings ++ [ping])))).
  { rewrite Hcount', Hcount, <- tally_trailing. unfold ping_verdicts.
    rewrite map_app. simpl. rewrite tally_snoc.
    destruct (max_ping <? ping)%Z; simpl; lia. }
  destruct Hok' as (_ & _ & _ & Hopen).
  split; [exact Hfinal|]. rewrite Hanswer, Hopen, Hfinal. auto.
Qed.

End Breaker.

(** X20.  A circuit breaker made with a threshold of at least one counts
    the high pings in a row: after any pings, [failure_count] is the
    number of pings above [max_ping_ms] at the end of the sequence, the
    breaker is open exactly when that number has reached the threshold,
    and [check_network] allows trading exactly when it has not; one ping
    within the limit closes the breaker at once. *)
Theorem breaker_counts_high_pings_in_a_row :
  forall (max_ping threshold : Z) (pings : list Z) (ping : Z),
    (1 <= threshold)%Z ->
    CircuitBreaker.failure_count
      (snd (fst (CircuitBreaker.check_network
                   (CircuitBreaker.after_pings
                      (CircuitBreaker.create max_ping threshold) pings) ping)))
    = Z.of_nat (trailing_failures
                  (ping_verdicts max_ping (pings ++ [ping])))
    /\ CircuitBreaker.is_open
         (snd (fst (CircuitBreaker.check_network
                      (CircuitBreaker.after_pings
                         (CircuitBreaker.create max_ping threshold) pings) ping)))
       = (threshold <=? Z.of_nat (trailing_failures
                   (ping_verdicts max_ping (pings ++ [ping]))))%Z
    /\ fst (fst (CircuitBreaker.check_network
                   (CircuitBreaker.after_pings
                      (CircuitBreaker.create max_ping threshold) pings) ping))
       = negb (threshold <=? Z.of_nat (trailing_failures
                   (ping_verdicts max_ping (pings ++ [ping]))))%Z.
Proof.
  intros max_ping threshold pings ping Hthr.
  exact (breaker_after_pings max_ping threshold Hthr pings ping).
Qed.

Lemma breaker_counts_high_pings_in_a_row_witness :
  fst (fst (CircuitBreaker.check_network
              (CircuitBreaker.after_pings (CircuitBreaker.create 200 2) [250; 90; 300]%Z)
              450%Z))
  = false.
Proof.
  exact (proj2 (proj2 (breaker_counts_high_pings_in_a_row 200 2 [250; 90; 300]%Z 450%Z
                         ltac:(lia)))).
Defined.

(** X21.  In the cycle of [check_network_and_trade_bad] the branch for an
    unstable connection (ping above 400) is never taken: every such ping
    is already caught by the test for a ping above 200 that stands before
    it. *)
Theorem unstable_branch_is_dead :
  forall ping : Z,
    CircuitBreaker.bad_cycle_branch ping <> CircuitBreaker.Unstable
    /\ ((400 < ping)%Z ->
        CircuitBreaker.bad_cycle_branch ping = CircuitBreaker.HighLatency).
Proof.
  intros ping. unfold CircuitBreaker.bad_cycle_branch.
  destruct (200 <? ping)%Z eqn:H200.
  - split; [discriminate | reflexivity].
  - apply Z.ltb_ge in H200. destruct (400 <? ping)%Z eqn:H400.
    + apply Z.ltb_lt in H400. lia.
    + split; [discriminate | lia].
Qed.

Lemma unstable_branch_is_dead_witness :
  CircuitBreaker.bad_cycle_branch 450 = CircuitBreaker.HighLatency.
Proof.
  exact (proj2 (unstable_branch_is_dead 450%Z) ltac:(lia)).
Defined.

(** ** Failed orders and the run loop *)

Lemma live_cycle_outcome (cfg : config) (w : world) (st : OrderExecutor) :
  DRY_RUN cfg = false ->
  outcome (run_once cfg w st) = Ok (fetch_ohlcv_ok w && is_ok (run_strategy w)).
Proof.
  intros Hlive. destruct st as [pos].
  unfold_model. unfold Execution.profit_pct. rewrite !Hlive.
  destruct (fetch_ohlcv_ok w); destruct (run_strategy w) as [[]|e];
    crunch; reflexivity.
Qed.

Lemma live_loop_from_keeps_going (cfg : config) (ws : list world) :
  DRY_RUN cfg = false ->
  Forall (fun w => fetch_ohlcv_ok w = true /\ is_ok (run_strategy w) = true) ws ->
  forall st : OrderExecutor,
    outcome (run_loop_from cfg (map (fun w => Pass (Cycle w)) ws) 0 st)
    = Ok (Continue, 0, map (fun _ => (true, 0)) ws).
Proof.
  intros Hlive Hall. induction Hall as [|w rest [Hdf Hsig] _ IH]; intros st.
  - reflexivity.
  - pose proof (live_cycle_outcome cfg w st Hlive) as Hout.
    rewrite Hdf, Hsig in Hout. simpl in Hout.
    simpl. unfold loop_body, cycle_of. unfold outcome in *. unfold_monad.
    destruct (run_once cfg w st) as [[r st1] tr1]. simpl in Hout. subst r.
    cbn -[run_loop_from run_once].
    specialize (IH st1).
    destruct (run_loop_from cfg (map (fun w0 => Pass (Cycle w0)) rest) 0 st1)
      as [[r2 st2] tr2]. simpl in IH. subst r2. reflexivity.
Qed.

(** X22.  The failure limit of [run_loop] does not see failed orders.
    When trading live, as long as the candles arrive and the strategy
    answers, every pass counts as a success whatever becomes of the order:
    [retry_count] stays at zero and the loop never leaves through
    [break], even if the exchange refuses every order. *)
Theorem failed_orders_never_stop_the_loop :
  forall (cfg : config) (ws : list world) (st : OrderExecutor),
    DRY_RUN cfg = false ->
    Forall (fun w => fetch_ohlcv_ok w = true /\ is_ok (run_strategy w) = true) ws ->
    outcome (run_loop cfg (map (fun w => Pass (Cycle w)) ws) st)
    = Ok (Continue, 0, map (fun _ => (true, 0)) ws).
Proof.
  intros cfg ws st Hlive Hall.
  pose proof (live_loop_from_keeps_going cfg ws Hlive Hall st) as Hfrom.
  unfold run_loop, outcome in *. unfold bind at 1.
  destruct (run_loop_from cfg (map (fun w => Pass (Cycle w)) ws) 0 st)
    as [[r st1] tr1]. simpl in Hfrom. subst r. reflexivity.
Qed.

Lemma failed_orders_never_stop_the_loop_witness :
  outcome (run_loop live_config
             (map (fun w => Pass (Cycle w)) (repeat (refusing_world BUY InvalidOrder) 8))
             init)
  = Ok (Continue, 0,
        map (fun _ => (true, 0)) (repeat (refusing_world BUY InvalidOrder) 8)).
Proof.
  apply (failed_orders_never_stop_the_loop live_config
           (repeat (refusing_world BUY InvalidOrder) 8) init eq_refl).
  repeat constructor.
Defined.

(** Eight refused buys, eight submissions, and the bot runs on. *)
Example refused_buys_are_resubmitted :
  List.length (submissions (trace (run_loop live_config
     (map (fun w => Pass (Cycle w)) (repeat (refusing_world BUY InvalidOrder) 8))
     init))) = 8.
Proof. reflexivity. Qed.

(** ** The balance check, whatever it is asked *)

(** X23.  [check_balance] never raises, never changes the executor, asks
    the exchange for the balance once and submits nothing.  A required
    amount of zero counts as none given: the check then asks for a
    strictly positive balance, so a balance of 0 fails a requirement of
    0. *)
Theorem check_balance_is_safe :
  forall (w : world) (st : OrderExecutor) (currency : string) (required : pynum),
    (exists (b : bool) (tr : list event),
        Execution.check_balance w currency required st = (Ok b, st, FetchBalance :: tr)
        /\ Forall (fun ev => exists line, ev = Log line) tr)
    /\ (forall z : float,
          required = Some z ->
          PrimFloat.eqb z 0%float = true ->
          Execution.check_balance w currency required st
          = Execution.check_balance w currency None st)
    /\ (forall z : float,
          required = Some z ->
          PrimFloat.eqb z 0%float = true ->
          fetch_balance_free w currency = Ok (Some 0%float) ->
          outcome (Execution.check_balance w currency required st) = Ok false).
Proof.
  intros w st currency required. split; [|split].
  - unfold_model. crunch; do 2 eexists; (split; [reflexivity|]);
      repeat constructor; eexists; reflexivity.
  - intros z -> Hz. unfold_model. unfold float_truthy. rewrite Hz. reflexivity.
  - intros z -> Hz Hbal. unfold_model. unfold float_truthy.
    rewrite Hz, Hbal. reflexivity.
Qed.

Lemma check_balance_is_safe_witness :
  outcome (Execution.check_balance (calm_world BUY 0%float) "USDT" (Some 0%float) init)
  = Ok false.
Proof.
  exact (proj2 (proj2 (check_balance_is_safe (calm_world BUY 0%float) init
                         "USDT" (Some 0%float)))
           0%float eq_refl eq_refl eq_refl).
Defined.
